(** * Kokoro-FastAPI: the RunPod serverless handler ([runpod_handler.py])

    A shallow embedding of the module [runpod_handler.py]: the Python values
    a Job is made of, the two [base64] library calls the handler relies on
    ([base64.b64decode] with its default, lenient mode, and
    [base64.b64encode]), the handler itself as a computation over an
    explicit world (the host's objects, the module global [pipeline], the
    Model Session and a log of its [tts] calls), and the module's top level
    ([pipeline = KokoroV1Pipeline(use_gpu=True)], then the worker loop). *)

From Stdlib Require Import ZArith Strings.Byte Strings.Ascii Strings.String.
From Stdlib Require Import Floats.SpecFloat.
From stdpp Require Import base option list gmap strings fin_maps.

Set Warnings "-register-all".

Local Open Scope string_scope.
Local Open Scope list_scope.
Local Open Scope Z_scope.

(** ** Python values *)

(** A [str] is kept as the string of its UTF-8 bytes: it is empty exactly
    when the [str] is, and it has a byte above 127 exactly when the [str]
    has a non-ASCII character.  [bytes] are lists of bytes, [int] is
    unbounded, a [float] is an IEEE 754 value, a [dict] has [str] keys (the
    host builds a Job from JSON). *)
Inductive value : Type :=
  | VNone
  | VBool (b : bool)
  | VInt (n : Z)
  | VFloat (f : spec_float)
  | VStr (s : string)
  | VBytes (b : list byte)
  | VList (l : list value)
  | VDict (d : gmap string value).

(** The exceptions this module can see.  [ModelError] stands for whatever
    the Model Session raises. *)
Inductive binascii_reason : Type :=
  | IncorrectPadding
  | InvalidLength (data_chars : Z).

Inductive exn : Type :=
  | KeyError (key : string)
  | TypeError
  | AttributeError
  | NameError (name : string)
  | ValueError
  | UnicodeDecodeError
  | BinasciiError (r : binascii_reason)
  | SystemError
  | ModelError (code : Z).

(** [bool(v)]: the truth value tested by [if not v]. *)
Definition truthy (v : value) : bool :=
  match v with
  | VNone => false
  | VBool b => b
  | VInt n => negb (n =? 0)
  | VFloat f =>
      match f with
      | S754_zero _ => false
      | _ => true
      end
  | VStr s =>
      match s with
      | EmptyString => false
      | String _ _ => true
      end
  | VBytes b =>
      match b with
      | [] => false
      | _ :: _ => true
      end
  | VList l =>
      match l with
      | [] => false
      | _ :: _ => true
      end
  | VDict d => negb (Nat.eqb (size d) 0)
  end.

(** ** Bytes as numbers *)

Definition byte_val (b : byte) : Z := Z.of_N (Byte.to_N b).

(** Storing an [int] into an [unsigned char]: the low eight bits. *)
Definition u8 (z : Z) : byte :=
  match Byte.of_N (Z.to_N (Z.land z 255)) with
  | Some b => b
  | None => "000"%byte
  end.

Definition byte_eqb (a b : byte) : bool := Byte.eqb a b.

(** ** [binascii.b2a_base64] and [base64.b64encode] *)

Definition table_b2a_base64 : list byte :=
  list_byte_of_string
    "ABCDEFGHIJKLMNOPQRSTUVWXYZabcdefghijklmnopqrstuvwxyz0123456789+/".

Definition BASE64_PAD : byte := "="%byte.

Definition b2a_char (sextet : Z) : byte :=
  nth (Z.to_nat sextet) table_b2a_base64 BASE64_PAD.

(** The four characters of a full three-byte group, and the padded tails
    for one or two left-over bytes ([newline=False], as [b64encode] asks). *)
Fixpoint b2a_base64 (bin : list byte) : list byte :=
  match bin with
  | [] => []
  | [a] =>
      let a := byte_val a in
      [b2a_char (Z.shiftr a 2);
       b2a_char (Z.shiftl (Z.land a 3) 4);
       BASE64_PAD; BASE64_PAD]
  | [a; b] =>
      let a := byte_val a in
      let b := byte_val b in
      [b2a_char (Z.shiftr a 2);
       b2a_char (Z.lor (Z.shiftl (Z.land a 3) 4) (Z.shiftr b 4));
       b2a_char (Z.shiftl (Z.land b 15) 2);
       BASE64_PAD]
  | a :: b :: c :: rest =>
      let a := byte_val a in
      let b := byte_val b in
      let c := byte_val c in
      b2a_char (Z.shiftr a 2)
      :: b2a_char (Z.lor (Z.shiftl (Z.land a 3) 4) (Z.shiftr b 4))
      :: b2a_char (Z.lor (Z.shiftl (Z.land b 15) 2) (Z.shiftr c 6))
      :: b2a_char (Z.land c 63)
      :: b2a_base64 rest
  end.

(** [base64.b64encode(s)]: a bytes-like argument is required. *)
Definition b64encode (s : value) : exn + list byte :=
  match s with
  | VBytes b => inr (b2a_base64 b)
  | _ => inl TypeError
  end.

(** ** [binascii.a2b_base64] and [base64.b64decode] *)

(** The decoding table: the sextet of an alphabet character, 255 (the C
    table's -1 in an [unsigned char]) for every other byte. *)
Definition table_a2b_base64 (c : byte) : Z :=
  let n := byte_val c in
  if (65 <=? n) && (n <=? 90) then n - 65
  else if (97 <=? n) && (n <=? 122) then n - 71
  else if (48 <=? n) && (n <=? 57) then n + 4
  else if n =? 43 then 62
  else if n =? 47 then 63
  else if n =? 61 then 0
  else 255.

(** The decoding loop, not in strict mode.  [quad_pos] is the position in
    the current group of four, [leftchar] the bits not yet written, [pads]
    the padding characters seen since the last data character, [bin] the
    bytes written so far.  A character outside the alphabet is skipped; a
    padding character ends the input once it completes the group. *)
Fixpoint a2b_loop (ascii_data : list byte) (quad_pos leftchar pads : Z)
    (bin : list byte) : exn + list byte :=
  match ascii_data with
  | [] =>
      if quad_pos =? 0 then inr bin
      else if quad_pos =? 1 then
        inl (BinasciiError
               (InvalidLength (Z.of_nat (length bin) / 3 * 4 + 1)))
      else inl (BinasciiError IncorrectPadding)
  | this_ch :: rest =>
      if byte_eqb this_ch BASE64_PAD then
        if 2 <=? quad_pos then
          if 4 <=? quad_pos + (pads + 1) then inr bin
          else a2b_loop rest quad_pos leftchar (pads + 1) bin
        else a2b_loop rest quad_pos leftchar pads bin
      else
        let this_ch := table_a2b_base64 this_ch in
        if 64 <=? this_ch then a2b_loop rest quad_pos leftchar pads bin
        else
          match quad_pos with
          | 0 => a2b_loop rest 1 this_ch 0 bin
          | 1 =>
              a2b_loop rest 2 (Z.land this_ch 15) 0
                (bin ++ [u8 (Z.lor (Z.shiftl leftchar 2) (Z.shiftr this_ch 4))])
          | 2 =>
              a2b_loop rest 3 (Z.land this_ch 3) 0
                (bin ++ [u8 (Z.lor (Z.shiftl leftchar 4) (Z.shiftr this_ch 2))])
          | _ =>
              a2b_loop rest 0 0 0
                (bin ++ [u8 (Z.lor (Z.shiftl leftchar 6) this_ch)])
          end
  end.

Definition a2b_base64 (data : list byte) : exn + list byte :=
  a2b_loop data 0 0 0 [].

Definition is_ascii (b : byte) : bool := byte_val b <? 128.

(** [s.encode('ascii')] *)
Definition encode_ascii (s : string) : option (list byte) :=
  let bs := list_byte_of_string s in
  if forallb is_ascii bs then Some bs else None.

(** [base64.b64decode(s)] with [validate=False]: a [str] must be ASCII, a
    [bytes] is taken as it is, anything else is not bytes-like. *)
Definition b64decode (s : value) : exn + list byte :=
  match s with
  | VStr s =>
      match encode_ascii s with
      | Some bs => a2b_base64 bs
      | None => inl ValueError
      end
  | VBytes bs => a2b_base64 bs
  | _ => inl TypeError
  end.

(** [b.decode('utf-8')]: the well-formed byte sequences of UTF-8 (one to
    four bytes, no overlong form, no surrogate, nothing above U+10FFFF). *)
Definition utf8_cont (n : Z) : bool := (128 <=? n) && (n <=? 191).

Fixpoint utf8_valid (bs : list byte) : bool :=
  match bs with
  | [] => true
  | b0 :: r0 =>
      let n0 := byte_val b0 in
      if n0 <? 128 then utf8_valid r0
      else
        match r0 with
        | [] => false
        | b1 :: r1 =>
            let n1 := byte_val b1 in
            if (194 <=? n0) && (n0 <=? 223) then utf8_cont n1 && utf8_valid r1
            else
              match r1 with
              | [] => false
              | b2 :: r2 =>
                  let n2 := byte_val b2 in
                  if (224 <=? n0) && (n0 <=? 239) then
                    (if n0 =? 224 then (160 <=? n1) && (n1 <=? 191)
                     else if n0 =? 237 then (128 <=? n1) && (n1 <=? 159)
                     else utf8_cont n1)
                    && utf8_cont n2 && utf8_valid r2
                  else
                    match r2 with
                    | [] => false
                    | b3 :: r3 =>
                        let n3 := byte_val b3 in
                        if (240 <=? n0) && (n0 <=? 244) then
                          (if n0 =? 240 then (144 <=? n1) && (n1 <=? 191)
                           else if n0 =? 244 then (128 <=? n1) && (n1 <=? 143)
                           else utf8_cont n1)
                          && utf8_cont n2 && utf8_cont n3 && utf8_valid r3
                        else false
                    end
              end
        end
  end.

Definition decode_utf8 (bs : list byte) : exn + string :=
  if utf8_valid bs then inr (string_of_list_byte bs)
  else inl UnicodeDecodeError.

(** ** The world the module runs in *)

(** Object identity.  Every Python name holds a reference; the objects live
    in the heap. *)
Definition loc := positive.

(** One recorded call [self.tts(text=..., speaker_wav=...)]. *)
Record call : Type := mkCall {
  call_self : loc;
  call_text : value;
  call_speaker_wav : list byte
}.

Section Handler.

(** The collaborators, out of this module's hands: the internal state of
    a [KokoroV1Pipeline], its constructor and its [tts] method.  Both may
    raise; [tts] may change the state of the pipeline it is called on.
    It is handed the text and the decoded bytes, not the Job. *)
Context {Session : Type}.
Variable kokoro_init : bool -> exn + Session.
Variable kokoro_tts :
  Session -> value -> list byte -> (exn + value) * Session.

Inductive object : Type :=
  | OValue (v : value)
  | OPipeline (st : Session).

Record world : Type := mkWorld {
  heap : gmap loc object;
  pipeline : option loc;            (* the module global [pipeline] *)
  constructed : list (loc * bool);  (* instances built, with [use_gpu] *)
  calls : list call;                (* the [tts] calls made so far *)
  stdout : list string
}.

Definition set_heap (h : gmap loc object) (w : world) : world :=
  mkWorld h (pipeline w) (constructed w) (calls w) (stdout w).
Definition set_pipeline (p : option loc) (w : world) : world :=
  mkWorld (heap w) p (constructed w) (calls w) (stdout w).
Definition log_constructed (c : loc * bool) (w : world) : world :=
  mkWorld (heap w) (pipeline w) (constructed w ++ [c]) (calls w) (stdout w).
Definition log_call (c : call) (w : world) : world :=
  mkWorld (heap w) (pipeline w) (constructed w) (calls w ++ [c]) (stdout w).
Definition log_stdout (s : string) (w : world) : world :=
  mkWorld (heap w) (pipeline w) (constructed w) (calls w) (stdout w ++ [s]).

(** Computations: a result or a raised exception, and the world after. *)
Definition M (A : Type) : Type := world -> (exn + A) * world.

Definition ret {A} (a : A) : M A := fun w => (inr a, w).
Definition raise {A} (e : exn) : M A := fun w => (inl e, w).
Definition bind {A B} (m : M A) (k : A -> M B) : M B :=
  fun w =>
    match m w with
    | (inr a, w') => k a w'
    | (inl e, w') => (inl e, w')
    end.
Definition lift {A} (r : exn + A) : M A :=
  match r with
  | inr a => ret a
  | inl e => raise e
  end.

Notation "x <- m ;; k" := (bind m (fun x => k))
  (at level 100, m at next level, right associativity).

(** ** Python operations the handler uses *)

(** [o[key]] for a [str] key: a lookup in a [dict], [KeyError] when the
    key is missing; [TypeError] on anything else (a [str], [bytes] or
    [list] wants an integer index, the rest is not subscriptable).  A
    reference always designates an object; [SystemError] marks the
    case that no Python program reaches. *)
Definition getitem (o : loc) (key : string) : M value :=
  fun w =>
    match heap w !! o with
    | Some (OValue (VDict d)) =>
        match d !! key with
        | Some v => (inr v, w)
        | None => (inl (KeyError key), w)
        end
    | Some _ => (inl TypeError, w)
    | None => (inl SystemError, w)
    end.

(** [o.get(key, default)]: only a [dict] has the method. *)
Definition dict_get (o : value) (key : string) (default_value : value)
    : M value :=
  match o with
  | VDict d =>
      match d !! key with
      | Some v => ret v
      | None => ret default_value
      end
  | _ => raise AttributeError
  end.

(** [KokoroV1Pipeline(use_gpu=...)]: a new object, unless the constructor
    raises. *)
Definition KokoroV1Pipeline (use_gpu : bool) : M loc :=
  fun w =>
    match kokoro_init use_gpu with
    | inr st =>
        let p := fresh (dom (heap w)) in
        (inr p, log_constructed (p, use_gpu)
                  (set_heap (<[p := OPipeline st]> (heap w)) w))
    | inl e => (inl e, w)
    end.

(** [pipeline.tts(text=text, speaker_wav=speaker_wav)]: the global is
    looked up, then the method is called on the object it names. *)
Definition pipeline_tts (text : value) (speaker_wav : list byte) : M value :=
  fun w =>
    match pipeline w with
    | None => (inl (NameError "pipeline"), w)
    | Some p =>
        match heap w !! p with
        | Some (OPipeline st) =>
            let w1 := log_call (mkCall p text speaker_wav) w in
            match kokoro_tts st text speaker_wav with
            | (r, st') =>
                (r, set_heap (<[p := OPipeline st']> (heap w1)) w1)
            end
        | Some (OValue _) => (inl AttributeError, w)
        | None => (inl SystemError, w)
        end
    end.

(** [pipeline = p] at module level. *)
Definition assign_pipeline (p : loc) : M unit :=
  fun w => (inr tt, set_pipeline (Some p) w).

Definition print (s : string) : M unit :=
  fun w => (inr tt, log_stdout s w).

(** ** [handler] *)

Definition default_text : string := "Hello, this is a test.".
Definition required_field_message : string :=
  "speaker_wav_base64 is a required field.".

Definition handler (job : loc) : M (gmap string value) :=
  job_input <- getitem job "input" ;;
  text <- dict_get job_input "text" (VStr default_text) ;;
  speaker_wav_base64 <- dict_get job_input "speaker_wav_base64" VNone ;;
  if negb (truthy speaker_wav_base64) then
    ret {[ "error" := VStr required_field_message ]}
  else
    speaker_wav_bytes <- lift (b64decode speaker_wav_base64) ;;
    wav_bytes <- pipeline_tts text speaker_wav_bytes ;;
    encoded <- lift (b64encode wav_bytes) ;;
    wav_base64 <- lift (decode_utf8 encoded) ;;
    ret {[ "audio_base64" := VStr wav_base64 ]}.

(** ** The module's top level and the worker *)

(** What the caller of one Job gets to see: the handler's Response, or the
    failure the worker caught. *)
Definition outcome : Type := exn + gmap string value.

(** Modelled from the spec: the host runtime that hands a Job to the
    entry point (the [runpod] library, not part of this repository's
    source).  The spec has the host construct the Job value and invoke the
    entry point with it; a failure of the handler goes to the host as it
    is.  What the host does before the call (it is said to guarantee that
    [input] is there) and whatever it logs are outside this model: [job]
    is a Job the host does hand over. *)
Definition deliver (h : loc -> M (gmap string value)) (job : value)
    : world -> outcome * world :=
  fun w =>
    let l := fresh (dom (heap w)) in
    h l (set_heap (<[l := OValue job]> (heap w)) w).

(** Modelled from the spec: [runpod.serverless.start({"handler": h})] of
    the [runpod] library, not part of this repository's source.  The spec
    has the host supply Jobs one at a time and invoke the registered entry
    point on each, keeping the process alive across Jobs; [jobs] are the
    Jobs it hands to the handler during the life of the process, in order.
    The host's own output and its treatment of requests it does not hand
    over are not modelled. *)
Fixpoint runpod_serverless_start (h : loc -> M (gmap string value))
    (jobs : list value) : M (list outcome) :=
  match jobs with
  | [] => ret []
  | job :: rest =>
      fun w =>
        match deliver h job w with
        | (o, w') =>
            match runpod_serverless_start h rest w' with
            | (inr os, w'') => (inr (o :: os), w'')
            | (inl e, w'') => (inl e, w'')
            end
        end
  end.

(** The statements of the module, in order. *)
Definition main (jobs : list value) : M (list outcome) :=
  p <- KokoroV1Pipeline true ;;
  _ <- assign_pipeline p ;;
  _ <- print "TTS Pipeline Initialized." ;;
  runpod_serverless_start handler jobs.

(** The world of a process that has just started. *)
Definition process_start : world := mkWorld ∅ None [] [] [].

(** A world in which the module has been loaded: the global [pipeline]
    names a Model Session. *)
Definition ready (w : world) : Prop :=
  exists p st, pipeline w = Some p /\ heap w !! p = Some (OPipeline st).

End Handler.

(** A Model Session for examples: it counts its calls and answers with the
    reference voice it was given. *)
Definition echo_init (use_gpu : bool) : exn + nat := inr 0%nat.
Definition echo_tts (st : nat) (text : value) (speaker_wav : list byte)
    : (exn + value) * nat :=
  (inr (VBytes speaker_wav), Datatypes.S st).

(** A world with one Job object at [1] and the session at [2]. *)
Definition example_world (job : value) : world (Session := nat) :=
  mkWorld (<[1%positive := OValue job]> {[ 2%positive := OPipeline 0%nat ]})
    (Some 2%positive) [(2%positive, true)] [] [].

(** The same session in another world: the Job at [5], the session at [3],
    already used seven times, one call in the log. *)
Definition example_world' (job : value) : world (Session := nat) :=
  mkWorld (<[5%positive := OValue job]> {[ 3%positive := OPipeline 7%nat ]})
    (Some 3%positive) [(3%positive, true)]
    [mkCall 3%positive (VStr "earlier") []] ["TTS Pipeline Initialized."].

(** Jobs for examples.  ["QUJD"] encodes the bytes of ["ABC"]. *)
Definition job_hello : value :=
  VDict {[ "input" :=
             VDict {[ "text" := VStr "Hello world";
                      "speaker_wav_base64" := VStr "QUJD" ]} ]}.
Definition job_no_text : value :=
  VDict {[ "input" := VDict {[ "speaker_wav_base64" := VStr "QUJD" ]} ]}.
Definition job_empty_input : value := VDict {[ "input" := VDict ∅ ]}.
Definition job_no_input : value := VDict {[ "text" := VStr "Hello world" ]}.
Definition job_cut_short : value :=
  VDict {[ "input" := VDict {[ "speaker_wav_base64" := VStr "QUJ" ]} ]}.
Definition job_spaced : value :=
  VDict {[ "input" := VDict {[ "speaker_wav_base64" := VStr "QU JD" ]} ]}.

(** ** Auxiliary definitions for the proofs *)

(** Every byte, for properties of one or two bytes checked by evaluation. *)
Definition all_bytes : list byte := map (fun n => u8 (Z.of_nat n)) (seq 0 256).

(** A data character: in the alphabet, hence not the padding character. *)
Definition is_b64_data (c : byte) : bool :=
  negb (byte_eqb c BASE64_PAD) && (table_a2b_base64 c <? 64).

Definition is_sextet (n : Z) : bool := (0 <=? n) && (n <? 64).

(** What the decoder needs of the first two characters of a group. *)
Definition group_head_ok (a b : byte) : bool :=
  let za := byte_val a in
  let zb := byte_val b in
  let s1 := Z.shiftr za 2 in
  let s2 := Z.lor (Z.shiftl (Z.land za 3) 4) (Z.shiftr zb 4) in
  is_sextet s1 && is_sextet s2
  && byte_eqb (u8 (Z.lor (Z.shiftl s1 2) (Z.shiftr s2 4))) a
  && (Z.land s2 15 =? Z.shiftr zb 4).

(** What it needs of the last two. *)
Definition group_tail_ok (b c : byte) : bool :=
  let zb := byte_val b in
  let zc := byte_val c in
  let s3 := Z.lor (Z.shiftl (Z.land zb 15) 2) (Z.shiftr zc 6) in
  let s4 := Z.land zc 63 in
  is_sextet s3 && is_sextet s4
  && byte_eqb (u8 (Z.lor (Z.shiftl (Z.shiftr zb 4) 4) (Z.shiftr s3 2))) b
  && (Z.land s3 3 =? Z.shiftr zc 6)
  && byte_eqb (u8 (Z.lor (Z.shiftl (Z.shiftr zc 6) 6) s4)) c.

(** The same for the padded tails, where the missing byte counts as zero. *)
Definition pad_tail_ok (a b : byte) : bool :=
  let za := byte_val a in
  let zb := byte_val b in
  let s1 := Z.shiftr za 2 in
  let s2 := Z.shiftl (Z.land za 3) 4 in
  let s3 := Z.shiftl (Z.land zb 15) 2 in
  is_sextet s2 && is_sextet s3
  && byte_eqb (u8 (Z.lor (Z.shiftl s1 2) (Z.shiftr s2 4))) a
  && byte_eqb (u8 (Z.lor (Z.shiftl (Z.shiftr zb 4) 4) (Z.shiftr s3 2))) b.

(** The shape RFC 4648 asks of an encoding: groups of four alphabet
    characters, the last one possibly ending in one or two padding
    characters. *)
Fixpoint valid_base64_bytes (s : list byte) : bool :=
  match s with
  | [] => true
  | c1 :: c2 :: c3 :: c4 :: rest =>
      match rest with
      | [] =>
          is_b64_data c1 && is_b64_data c2
          && ((is_b64_data c3 && (is_b64_data c4 || byte_eqb c4 BASE64_PAD))
              || (byte_eqb c3 BASE64_PAD && byte_eqb c4 BASE64_PAD))
      | _ :: _ =>
          is_b64_data c1 && is_b64_data c2 && is_b64_data c3 && is_b64_data c4
          && valid_base64_bytes rest
      end
  | _ => false
  end.

Definition valid_base64 (s : string) : bool :=
  valid_base64_bytes (list_byte_of_string s).

(** What the lenient decoder looks at: the padding character and the
    alphabet.  Every other byte is skipped. *)
Definition is_b64_significant (c : byte) : bool :=
  byte_eqb c BASE64_PAD || is_b64_data c.

Definition significant (bs : list byte) : list byte :=
  List.filter is_b64_significant bs.

(** The number of alphabet characters of an input. *)
Definition count_data (bs : list byte) : Z :=
  Z.of_nat (length (List.filter is_b64_data bs)).

Definition no_padding (bs : list byte) : bool :=
  forallb (fun c => negb (byte_eqb c BASE64_PAD)) bs.

Definition no_data (bs : list byte) : bool :=
  forallb (fun c => negb (is_b64_data c)) bs.

Definition ascii_string (s : string) : bool :=
  forallb is_ascii (list_byte_of_string s).

(** Sessions that misbehave, for examples: one whose constructor raises,
    one whose [tts] raises, one whose [tts] returns a [str]. *)
Definition failing_init (use_gpu : bool) : exn + nat := inl (ModelError 2).
Definition failing_tts (st : nat) (text : value) (speaker_wav : list byte)
    : (exn + value) * nat :=
  (inl (ModelError 1), Datatypes.S st).
Definition str_tts (st : nat) (text : value) (speaker_wav : list byte)
    : (exn + value) * nat :=
  (inr (VStr "RIFF"), Datatypes.S st).

(** More Jobs for examples. *)
Definition job_input_is_text : value := VDict {[ "input" := VStr "Hello" ]}.
Definition job_number_speaker : value :=
  VDict {[ "input" := VDict {[ "speaker_wav_base64" := VInt 7 ]} ]}.
Definition job_empty_text : value :=
  VDict {[ "input" :=
             VDict {[ "text" := VStr "";
                      "speaker_wav_base64" := VStr "QUJD" ]} ]}.
Definition job_blank_speaker : value :=
  VDict {[ "input" := VDict {[ "speaker_wav_base64" := VStr " . " ]} ]}.
Definition job_hello_tagged : value :=
  VDict {[ "id" := VStr "job-1";
           "input" :=
             VDict {[ "text" := VStr "Hello world";
                      "speaker_wav_base64" := VStr "QUJD";
                      "language" := VStr "en" ]} ]}.

(** * Properties *)

(** ** Bytes *)

Lemma all_bytes_complete (b : byte) : In b all_bytes.
Proof.
  assert (H : existsb (Byte.eqb b) all_bytes = true)
    by (destruct b; vm_compute; reflexivity).
  apply existsb_exists in H. destruct H as (x & Hin & Heq).
  apply Byte.byte_dec_bl in Heq. now subst.
Qed.

Lemma forall_byte (P : byte -> bool) :
  forallb P all_bytes = true -> forall a, P a = true.
Proof.
  intros H a. rewrite forallb_forall in H. apply H, all_bytes_complete.
Qed.

Lemma forall_byte2 (P : byte -> byte -> bool) :
  forallb (fun a => forallb (P a) all_bytes) all_bytes = true ->
  forall a b, P a b = true.
Proof.
  intros H a b. apply (forall_byte (P a)).
  exact (forall_byte (fun a => forallb (P a) all_bytes) H a).
Qed.

Lemma byte_eqb_eq (a b : byte) : byte_eqb a b = true -> a = b.
Proof. apply Byte.byte_dec_bl. Qed.

Lemma byte_eqb_refl (a : byte) : byte_eqb a a = true.
Proof. apply Byte.byte_dec_lb. reflexivity. Qed.

Lemma group_head_ok_all (a b : byte) : group_head_ok a b = true.
Proof. apply forall_byte2. vm_compute. reflexivity. Qed.

Lemma group_tail_ok_all (b c : byte) : group_tail_ok b c = true.
Proof. apply forall_byte2. vm_compute. reflexivity. Qed.

Lemma pad_tail_ok_all (a b : byte) : pad_tail_ok a b = true.
Proof. apply forall_byte2. vm_compute. reflexivity. Qed.

(** ** The codec *)

(** The two tables agree: a sextet's character is a data character whose
    table entry is the sextet. *)
Lemma table_a2b_b2a (n : Z) :
  is_sextet n = true ->
  byte_eqb (b2a_char n) BASE64_PAD = false
  /\ table_a2b_base64 (b2a_char n) = n.
Proof.
  unfold is_sextet. intros H.
  apply andb_true_iff in H. destruct H as [H0 H1].
  apply Z.leb_le in H0. apply Z.ltb_lt in H1.
  rewrite <- (Z2Nat.id n H0).
  assert (Hk : (Z.to_nat n < 64)%nat) by lia.
  generalize dependent (Z.to_nat n). clear. intros k Hk.
  do 64 (destruct k as [|k]; [vm_compute; split; reflexivity|]).
  lia.
Qed.

Lemma b2a_char_ascii (n : Z) : is_ascii (b2a_char n) = true.
Proof.
  unfold b2a_char. generalize (Z.to_nat n). intros k.
  assert (H : forallb is_ascii table_b2a_base64 = true) by reflexivity.
  revert k H. generalize table_b2a_base64. intros l.
  induction l as [|x l IH]; intros [|k] H; simpl in *; try reflexivity.
  - apply andb_true_iff in H. tauto.
  - apply andb_true_iff in H. apply IH. tauto.
Qed.

Lemma b2a_base64_ascii (bin : list byte) :
  forallb is_ascii (b2a_base64 bin) = true.
Proof.
  assert (H : forall n (l : list byte), (length l <= n)%nat ->
            forallb is_ascii (b2a_base64 l) = true).
  { intros n. induction n as [|n IH]; intros l Hl.
    - destruct l; [reflexivity | simpl in Hl; lia].
    - destruct l as [|a [|b [|c rest]]]; try reflexivity.
      + cbn [b2a_base64 forallb]. rewrite !b2a_char_ascii. reflexivity.
      + cbn [b2a_base64 forallb]. rewrite !b2a_char_ascii. reflexivity.
      + cbn [b2a_base64 forallb]. rewrite !b2a_char_ascii.
        cbn [andb]. apply IH. simpl in Hl. lia. }
  apply (H (length bin)). lia.
Qed.

(** One turn of the decoding loop on a data character. *)
Lemma a2b_loop_data (c : byte) (rest : list byte) (quad_pos leftchar pads : Z)
    (bin : list byte) :
  byte_eqb c BASE64_PAD = false ->
  (table_a2b_base64 c <? 64) = true ->
  a2b_loop (c :: rest) quad_pos leftchar pads bin =
    let this_ch := table_a2b_base64 c in
    match quad_pos with
    | 0 => a2b_loop rest 1 this_ch 0 bin
    | 1 =>
        a2b_loop rest 2 (Z.land this_ch 15) 0
          (bin ++ [u8 (Z.lor (Z.shiftl leftchar 2) (Z.shiftr this_ch 4))])
    | 2 =>
        a2b_loop rest 3 (Z.land this_ch 3) 0
          (bin ++ [u8 (Z.lor (Z.shiftl leftchar 4) (Z.shiftr this_ch 2))])
    | _ =>
        a2b_loop rest 0 0 0
          (bin ++ [u8 (Z.lor (Z.shiftl leftchar 6) this_ch)])
    end.
Proof.
  intros Hpad Hdata. cbn [a2b_loop]. rewrite Hpad.
  apply Z.ltb_lt in Hdata.
  destruct (64 <=? table_a2b_base64 c) eqn:E; [apply Z.leb_le in E; lia|].
  reflexivity.
Qed.

(** The same turn on the character of a sextet. *)
Lemma a2b_loop_sextet (n : Z) (rest : list byte) (quad_pos leftchar pads : Z)
    (bin : list byte) :
  is_sextet n = true ->
  a2b_loop (b2a_char n :: rest) quad_pos leftchar pads bin =
    match quad_pos with
    | 0 => a2b_loop rest 1 n 0 bin
    | 1 =>
        a2b_loop rest 2 (Z.land n 15) 0
          (bin ++ [u8 (Z.lor (Z.shiftl leftchar 2) (Z.shiftr n 4))])
    | 2 =>
        a2b_loop rest 3 (Z.land n 3) 0
          (bin ++ [u8 (Z.lor (Z.shiftl leftchar 4) (Z.shiftr n 2))])
    | _ =>
        a2b_loop rest 0 0 0 (bin ++ [u8 (Z.lor (Z.shiftl leftchar 6) n)])
    end.
Proof.
  intros Hn. destruct (table_a2b_b2a n Hn) as [Hpad Htab].
  rewrite a2b_loop_data; [| exact Hpad |].
  - cbv zeta. rewrite Htab. reflexivity.
  - rewrite Htab. unfold is_sextet in Hn.
    apply andb_true_iff in Hn. tauto.
Qed.

Ltac split_andb H :=
  repeat match type of H with
         | (_ && _)%bool = true =>
             let H1 := fresh H in
             apply andb_true_iff in H; destruct H as [H H1]
         end.

(** A full group of three bytes goes through the decoder unchanged. *)
Lemma a2b_loop_group (a b c : byte) (rest : list byte) (leftchar pads : Z)
    (bin : list byte) :
  a2b_loop
    (b2a_char (Z.shiftr (byte_val a) 2)
     :: b2a_char (Z.lor (Z.shiftl (Z.land (byte_val a) 3) 4)
                   (Z.shiftr (byte_val b) 4))
     :: b2a_char (Z.lor (Z.shiftl (Z.land (byte_val b) 15) 2)
                   (Z.shiftr (byte_val c) 6))
     :: b2a_char (Z.land (byte_val c) 63) :: rest) 0 leftchar pads bin
  = a2b_loop rest 0 0 0 (bin ++ [a; b; c]).
Proof.
  pose proof (group_head_ok_all a b) as Hh.
  pose proof (group_tail_ok_all b c) as Ht.
  unfold group_head_ok in Hh. unfold group_tail_ok in Ht. cbv zeta in Hh, Ht.
  split_andb Hh. split_andb Ht.
  apply byte_eqb_eq in Hh1, Ht0, Ht2. apply Z.eqb_eq in Hh0, Ht1.
  rewrite (a2b_loop_sextet _ _ 0) by assumption.
  rewrite (a2b_loop_sextet _ _ 1) by assumption.
  rewrite (a2b_loop_sextet _ _ 2) by assumption.
  rewrite (a2b_loop_sextet _ _ 3) by assumption.
  rewrite Hh1, Hh0, Ht2, Ht1, Ht0.
  rewrite <- !app_assoc. reflexivity.
Qed.

(** Decoding what [b2a_base64] wrote gives the bytes back, whatever was
    decoded before. *)
Lemma a2b_loop_b2a (bin0 : list byte) :
  forall bin leftchar pads,
    a2b_loop (b2a_base64 bin0) 0 leftchar pads bin = inr (bin ++ bin0).
Proof.
  assert (H : forall n (l : list byte), (length l <= n)%nat ->
            forall bin leftchar pads,
              a2b_loop (b2a_base64 l) 0 leftchar pads bin = inr (bin ++ l)).
  { intros n. induction n as [|n IH]; intros l Hl bin leftchar pads.
    - destruct l; [| simpl in Hl; lia]. cbn. rewrite app_nil_r. reflexivity.
    - destruct l as [|a [|b [|c rest]]].
      + cbn. rewrite app_nil_r. reflexivity.
      + pose proof (group_head_ok_all a "000"%byte) as Hh.
        pose proof (pad_tail_ok_all a "000"%byte) as Hp.
        unfold group_head_ok in Hh. unfold pad_tail_ok in Hp.
        cbv zeta in Hh, Hp. split_andb Hh. split_andb Hp.
        apply byte_eqb_eq in Hp1.
        cbn [b2a_base64]. cbv zeta.
        rewrite (a2b_loop_sextet _ _ 0) by assumption.
        rewrite (a2b_loop_sextet _ _ 1) by assumption.
        rewrite Hp1. reflexivity.
      + pose proof (group_head_ok_all a b) as Hh.
        pose proof (pad_tail_ok_all a b) as Hp.
        unfold group_head_ok in Hh. unfold pad_tail_ok in Hp.
        cbv zeta in Hh, Hp. split_andb Hh. split_andb Hp.
        apply byte_eqb_eq in Hh1, Hp0. apply Z.eqb_eq in Hh0.
        cbn [b2a_base64]. cbv zeta.
        rewrite (a2b_loop_sextet _ _ 0) by assumption.
        rewrite (a2b_loop_sextet _ _ 1) by assumption.
        rewrite (a2b_loop_sextet _ _ 2) by assumption.
        rewrite Hh1, Hh0, Hp0. cbn. rewrite <- app_assoc. reflexivity.
      + cbn [b2a_base64]. cbv zeta. rewrite a2b_loop_group.
        rewrite IH by (simpl in Hl; lia).
        rewrite <- app_assoc. reflexivity. }
  intros. apply (H (length bin0)). lia.
Qed.

Lemma a2b_b2a (bin : list byte) : a2b_base64 (b2a_base64 bin) = inr bin.
Proof. unfold a2b_base64. apply a2b_loop_b2a. Qed.

Lemma utf8_valid_ascii (bs : list byte) :
  forallb is_ascii bs = true -> utf8_valid bs = true.
Proof.
  induction bs as [|b bs IH]; [reflexivity|].
  cbn [forallb]. intros H. apply andb_true_iff in H. destruct H as [Hb Hbs].
  cbn [utf8_valid]. cbv zeta. unfold is_ascii in Hb. rewrite Hb. auto.
Qed.

Lemma encode_ascii_of_bytes (bs : list byte) :
  forallb is_ascii bs = true ->
  encode_ascii (string_of_list_byte bs) = Some bs.
Proof.
  intros H. unfold encode_ascii.
  rewrite list_byte_of_string_of_list_byte, H. reflexivity.
Qed.

(** The handler's encoding of synthesis output: [b64encode] writes ASCII,
    so [.decode('utf-8')] keeps it as it is. *)
Lemma decode_utf8_b2a (B : list byte) :
  decode_utf8 (b2a_base64 B) = inr (string_of_list_byte (b2a_base64 B)).
Proof.
  unfold decode_utf8.
  rewrite utf8_valid_ascii by apply b2a_base64_ascii. reflexivity.
Qed.

(** [b64decode] of that string. *)
Lemma b64decode_b2a (B : list byte) :
  b64decode (VStr (string_of_list_byte (b2a_base64 B))) = inr B.
Proof.
  cbn [b64decode].
  rewrite encode_ascii_of_bytes by apply b2a_base64_ascii.
  apply a2b_b2a.
Qed.

(** C4: the text-safe encoding is lossless.  For every byte sequence [B],
    what the handler does to the synthesis output ([base64.b64encode], then
    [.decode('utf-8')]) succeeds, and [base64.b64decode], which the handler
    applies to [speaker_wav_base64], gives exactly [B] back. *)
Theorem base64_round_trip (B : list byte) :
  exists (encoded : list byte) (E : string),
    b64encode (VBytes B) = inr encoded
    /\ decode_utf8 encoded = inr E
    /\ b64decode (VStr E) = inr B.
Proof.
  exists (b2a_base64 B), (string_of_list_byte (b2a_base64 B)).
  split; [reflexivity|]. split.
  - apply decode_utf8_b2a.
  - apply b64decode_b2a.
Qed.

(** ** Well-shaped encodings are accepted *)

Lemma valid_base64_bytes_cases (P : list byte -> Prop) :
  P [] ->
  (forall c1 c2 c3 c4,
     is_b64_data c1 = true -> is_b64_data c2 = true ->
     (is_b64_data c3 = true /\ is_b64_data c4 = true)
     \/ (is_b64_data c3 = true /\ c4 = BASE64_PAD)
     \/ (c3 = BASE64_PAD /\ c4 = BASE64_PAD) ->
     P [c1; c2; c3; c4]) ->
  (forall c1 c2 c3 c4 rest,
     is_b64_data c1 = true -> is_b64_data c2 = true ->
     is_b64_data c3 = true -> is_b64_data c4 = true ->
     P rest -> P (c1 :: c2 :: c3 :: c4 :: rest)) ->
  forall s, valid_base64_bytes s = true -> P s.
Proof.
  intros Hnil Hlast Hstep.
  assert (H : forall n (s : list byte), (length s <= n)%nat ->
            valid_base64_bytes s = true -> P s).
  { intros n. induction n as [|n IH]; intros s Hlen Hv.
    - destruct s; [exact Hnil | simpl in Hlen; lia].
    - destruct s as [|c1 [|c2 [|c3 [|c4 rest]]]]; try discriminate.
      + exact Hnil.
      + cbn [valid_base64_bytes] in Hv. destruct rest as [|c5 rest].
        * apply andb_true_iff in Hv. destruct Hv as [Hv H34].
          apply andb_true_iff in Hv. destruct Hv as [H1 H2].
          apply Hlast; [assumption | assumption |].
          apply orb_true_iff in H34. destruct H34 as [H34 | H34].
          -- apply andb_true_iff in H34. destruct H34 as [H3 H4].
             apply orb_true_iff in H4. destruct H4 as [H4 | H4].
             ++ left. tauto.
             ++ right. left. apply byte_eqb_eq in H4. tauto.
          -- apply andb_true_iff in H34. destruct H34 as [H3 H4].
             apply byte_eqb_eq in H3, H4. right. right. tauto.
        * split_andb Hv.
          apply Hstep; try assumption.
          apply IH; [simpl in Hlen |- *; lia | assumption]. }
  intros s. apply (H (length s)). lia.
Qed.

Lemma is_b64_data_ascii (c : byte) : is_b64_data c = true -> is_ascii c = true.
Proof.
  intros H.
  pose proof (forall_byte (fun c => implb (is_b64_data c) (is_ascii c))
                eq_refl c) as Hc.
  cbv beta in Hc. rewrite H in Hc. exact Hc.
Qed.

Lemma is_b64_data_step (c : byte) :
  is_b64_data c = true ->
  byte_eqb c BASE64_PAD = false /\ (table_a2b_base64 c <? 64) = true.
Proof.
  unfold is_b64_data. intros H. apply andb_true_iff in H.
  destruct H as [H1 H2]. apply negb_true_iff in H1. tauto.
Qed.

Lemma valid_base64_bytes_ascii (s : list byte) :
  valid_base64_bytes s = true -> forallb is_ascii s = true.
Proof.
  revert s. apply valid_base64_bytes_cases.
  - reflexivity.
  - intros c1 c2 c3 c4 H1 H2 H34. cbn [forallb].
    rewrite (is_b64_data_ascii c1 H1), (is_b64_data_ascii c2 H2).
    destruct H34 as [[H3 H4] | [[H3 H4] | [H3 H4]]].
    + rewrite (is_b64_data_ascii c3 H3), (is_b64_data_ascii c4 H4).
      reflexivity.
    + rewrite (is_b64_data_ascii c3 H3). subst c4. reflexivity.
    + subst c3 c4. reflexivity.
  - intros c1 c2 c3 c4 rest H1 H2 H3 H4 IH. cbn [forallb].
    rewrite (is_b64_data_ascii c1 H1), (is_b64_data_ascii c2 H2),
      (is_b64_data_ascii c3 H3), (is_b64_data_ascii c4 H4), IH.
    reflexivity.
Qed.

Lemma a2b_loop_valid (s : list byte) :
  valid_base64_bytes s = true ->
  forall leftchar pads bin,
    exists out, a2b_loop s 0 leftchar pads bin = inr out.
Proof.
  revert s.
  apply (valid_base64_bytes_cases
           (fun s => forall leftchar pads bin,
                exists out, a2b_loop s 0 leftchar pads bin = inr out)).
  - intros. eexists. reflexivity.
  - intros c1 c2 c3 c4 H1 H2 H34 leftchar pads bin.
    destruct (is_b64_data_step c1 H1) as [P1 D1].
    destruct (is_b64_data_step c2 H2) as [P2 D2].
    rewrite (a2b_loop_data c1) by assumption. cbv zeta iota.
    rewrite (a2b_loop_data c2) by assumption. cbv zeta iota.
    destruct H34 as [[H3 H4] | [[H3 H4] | [H3 H4]]].
    + destruct (is_b64_data_step c3 H3) as [P3 D3].
      destruct (is_b64_data_step c4 H4) as [P4 D4].
      rewrite (a2b_loop_data c3) by assumption. cbv zeta iota.
      rewrite (a2b_loop_data c4) by assumption. cbv zeta iota.
      eexists. reflexivity.
    + destruct (is_b64_data_step c3 H3) as [P3 D3].
      rewrite (a2b_loop_data c3) by assumption. cbv zeta iota.
      subst c4. eexists. reflexivity.
    + subst c3 c4. eexists. reflexivity.
  - intros c1 c2 c3 c4 rest H1 H2 H3 H4 IH leftchar pads bin.
    destruct (is_b64_data_step c1 H1) as [P1 D1].
    destruct (is_b64_data_step c2 H2) as [P2 D2].
    destruct (is_b64_data_step c3 H3) as [P3 D3].
    destruct (is_b64_data_step c4 H4) as [P4 D4].
    rewrite (a2b_loop_data c1) by assumption. cbv zeta iota.
    rewrite (a2b_loop_data c2) by assumption. cbv zeta iota.
    rewrite (a2b_loop_data c3) by assumption. cbv zeta iota.
    rewrite (a2b_loop_data c4) by assumption. cbv zeta iota.
    apply IH.
Qed.

(** A string of the RFC 4648 shape is decoded without failure. *)
Lemma valid_base64_decodes (s : string) :
  valid_base64 s = true -> exists wav, b64decode (VStr s) = inr wav.
Proof.
  unfold valid_base64. intros H. cbn [b64decode]. unfold encode_ascii.
  rewrite (valid_base64_bytes_ascii _ H). apply a2b_loop_valid, H.
Qed.

(** What [b2a_base64] writes has that shape. *)
Lemma b2a_base64_valid (bin : list byte) :
  valid_base64_bytes (b2a_base64 bin) = true.
Proof.
  assert (Hs : forall n, is_sextet n = true -> is_b64_data (b2a_char n) = true).
  { intros n Hn. destruct (table_a2b_b2a n Hn) as [Hp Ht].
    unfold is_b64_data. rewrite Hp, Ht.
    unfold is_sextet in Hn. apply andb_true_iff in Hn. apply Hn. }
  assert (H : forall n (l : list byte), (length l <= n)%nat ->
            valid_base64_bytes (b2a_base64 l) = true).
  { intros n. induction n as [|n IH]; intros l Hl.
    - destruct l; [reflexivity | simpl in Hl; lia].
    - destruct l as [|a [|b [|c rest]]]; [reflexivity | | |].
      + pose proof (group_head_ok_all a "000"%byte) as Hh.
        pose proof (pad_tail_ok_all a "000"%byte) as Hp.
        unfold group_head_ok in Hh. unfold pad_tail_ok in Hp.
        cbv zeta in Hh, Hp. split_andb Hh. split_andb Hp.
        cbn [b2a_base64 valid_base64_bytes]. cbv zeta.
        rewrite !Hs by assumption. reflexivity.
      + pose proof (group_head_ok_all a b) as Hh.
        pose proof (pad_tail_ok_all a b) as Hp.
        unfold group_head_ok in Hh. unfold pad_tail_ok in Hp.
        cbv zeta in Hh, Hp. split_andb Hh. split_andb Hp.
        cbn [b2a_base64 valid_base64_bytes]. cbv zeta.
        rewrite !Hs by assumption. rewrite byte_eqb_refl.
        reflexivity.
      + pose proof (group_head_ok_all a b) as Hh.
        pose proof (group_tail_ok_all b c) as Ht.
        unfold group_head_ok in Hh. unfold group_tail_ok in Ht.
        cbv zeta in Hh, Ht. split_andb Hh. split_andb Ht.
        cbn [b2a_base64 valid_base64_bytes]. cbv zeta.
        rewrite !Hs by assumption.
        rewrite IH by (simpl in Hl; lia).
        destruct (b2a_base64 rest); reflexivity. }
  apply (H (length bin)). lia.
Qed.

(** ** The handler *)

Section HandlerProperties.

Context {Session : Type}.
Variable kokoro_init : bool -> exn + Session.
Variable kokoro_tts :
  Session -> value -> list byte -> (exn + value) * Session.

Abbreviation handler := (handler kokoro_tts).
Abbreviation pipeline_tts := (pipeline_tts kokoro_tts).
Abbreviation world := (world (Session := Session)).

(** The handler on a Job whose [input] is a mapping, statement by
    statement. *)
Lemma handler_on_input (l : loc) (w : world) (m inp : gmap string value) :
  heap w !! l = Some (OValue (VDict m)) ->
  m !! "input" = Some (VDict inp) ->
  handler l w =
    let text := default (VStr default_text) (inp !! "text") in
    let speaker := default VNone (inp !! "speaker_wav_base64") in
    if truthy speaker then
      match b64decode speaker with
      | inl e => (inl e, w)
      | inr wav =>
          match pipeline_tts text wav w with
          | (inl e, w') => (inl e, w')
          | (inr wav_bytes, w') =>
              match b64encode wav_bytes with
              | inl e => (inl e, w')
              | inr encoded =>
                  match decode_utf8 encoded with
                  | inl e => (inl e, w')
                  | inr wav_base64 =>
                      (inr {[ "audio_base64" := VStr wav_base64 ]}, w')
                  end
              end
          end
      end
    else (inr {[ "error" := VStr required_field_message ]}, w).
Proof.
  intros Hl Hin. unfold handler, bind, getitem.
  rewrite Hl, Hin. unfold dict_get.
  destruct (inp !! "text") as [t|];
    destruct (inp !! "speaker_wav_base64") as [v|];
    cbn [from_option id ret];
    try reflexivity.
  - destruct (truthy v); cbn [negb]; [|reflexivity].
    destruct (b64decode v) as [e|wav]; cbn [lift raise ret]; [reflexivity|].
    destruct (pipeline_tts t wav w) as [[e|wb] w']; [reflexivity|].
    destruct (b64encode wb) as [e|enc]; cbn [lift raise ret]; [reflexivity|].
    destruct (decode_utf8 enc) as [e|E]; reflexivity.
  - destruct (truthy v); cbn [negb]; [|reflexivity].
    destruct (b64decode v) as [e|wav]; cbn [lift raise ret]; [reflexivity|].
    destruct (pipeline_tts (VStr default_text) wav w) as [[e|wb] w'];
      [reflexivity|].
    destruct (b64encode wb) as [e|enc]; cbn [lift raise ret]; [reflexivity|].
    destruct (decode_utf8 enc) as [e|E]; reflexivity.
Qed.

(** C1: a Job whose [input] has no [speaker_wav_base64], or has a falsy
    one (None, False, 0, 0.0, an empty string, bytes, list or dict), gets
    exactly the Response [{"error": "speaker_wav_base64 is a required
    field."}]; the world is left as it was, so no [tts] call was made. *)
Theorem missing_speaker_wav_rejected (l : loc) (w : world)
    (m inp : gmap string value) :
  heap w !! l = Some (OValue (VDict m)) ->
  m !! "input" = Some (VDict inp) ->
  (inp !! "speaker_wav_base64" = None
   \/ exists v, inp !! "speaker_wav_base64" = Some v /\ truthy v = false) ->
  handler l w =
    (inr {[ "error" := VStr "speaker_wav_base64 is a required field." ]}, w)
  /\ calls (snd (handler l w)) = calls w.
Proof.
  intros Hl Hin Hmiss.
  assert (H : handler l w =
              (inr {[ "error" := VStr "speaker_wav_base64 is a required field." ]},
               w)).
  { rewrite (handler_on_input l w m inp Hl Hin). cbv zeta.
    destruct Hmiss as [Hnone | (v & Hv & Hfalsy)].
    - rewrite Hnone. reflexivity.
    - rewrite Hv. cbn [from_option id]. rewrite Hfalsy. reflexivity. }
  split; [exact H | rewrite H; reflexivity].
Qed.

(** ** What a call of [tts] does to the world *)

Lemma pipeline_tts_ready (text : value) (wav : list byte) (w : world)
    (p : loc) (st : Session) :
  pipeline w = Some p ->
  heap w !! p = Some (OPipeline st) ->
  pipeline_tts text wav w =
    (fst (kokoro_tts st text wav),
     set_heap (<[p := OPipeline (snd (kokoro_tts st text wav))]> (heap w))
       (log_call (mkCall p text wav) w)).
Proof.
  intros Hp Hst. unfold pipeline_tts.
  rewrite Hp, Hst. destruct (kokoro_tts st text wav). reflexivity.
Qed.

(** Either nothing happens, or the call is logged on the session the
    global names and only that session's state changes. *)
Lemma pipeline_tts_world (text : value) (wav : list byte) (w : world) :
  snd (pipeline_tts text wav w) = w
  \/ exists p st st',
      pipeline w = Some p /\ heap w !! p = Some (OPipeline st)
      /\ snd (pipeline_tts text wav w) =
           set_heap (<[p := OPipeline st']> (heap w))
             (log_call (mkCall p text wav) w).
Proof.
  unfold pipeline_tts.
  destruct (pipeline w) as [p|] eqn:Hp; [|left; reflexivity].
  destruct (heap w !! p) as [[v|st]|] eqn:Hst; try (left; reflexivity).
  right. exists p, st, (snd (kokoro_tts st text wav)).
  destruct (kokoro_tts st text wav). auto.
Qed.

(** The handler changes the world through at most one [tts] call. *)
Lemma handler_world (l : loc) (w : world) :
  snd (handler l w) = w
  \/ exists text wav, snd (handler l w) = snd (pipeline_tts text wav w).
Proof.
  unfold handler, bind, getitem.
  destruct (heap w !! l) as [[j|st]|]; try (left; reflexivity).
  destruct j; try (left; reflexivity).
  destruct (d !! "input") as [ji|]; [|left; reflexivity].
  destruct ji; try (left; reflexivity).
  unfold dict_get.
  destruct (d0 !! "text") as [t|];
    destruct (d0 !! "speaker_wav_base64") as [v|]; cbn [ret];
    try (left; reflexivity).
  - destruct (truthy v); cbn [negb]; [|left; reflexivity].
    destruct (b64decode v) as [e|wav]; cbn [lift raise ret];
      [left; reflexivity|].
    right. exists t, wav.
    destruct (pipeline_tts t wav w) as [[e|wb] w']; [reflexivity|].
    destruct (b64encode wb) as [e|enc]; cbn [lift raise ret]; [reflexivity|].
    destruct (decode_utf8 enc) as [e|E]; reflexivity.
  - destruct (truthy v); cbn [negb]; [|left; reflexivity].
    destruct (b64decode v) as [e|wav]; cbn [lift raise ret];
      [left; reflexivity|].
    right. exists (VStr default_text), wav.
    destruct (pipeline_tts (VStr default_text) wav w) as [[e|wb] w'];
      [reflexivity|].
    destruct (b64encode wb) as [e|enc]; cbn [lift raise ret]; [reflexivity|].
    destruct (decode_utf8 enc) as [e|E]; reflexivity.
Qed.

(** What the handler can return. *)
Lemma handler_returns (l : loc) (w w' : world) (r : gmap string value) :
  handler l w = (inr r, w') ->
  (exists E, r = {[ "audio_base64" := VStr E ]})
  \/ r = {[ "error" := VStr required_field_message ]}.
Proof.
  unfold handler, bind, getitem.
  destruct (heap w !! l) as [[j|st]|]; try discriminate.
  destruct j; try discriminate.
  destruct (d !! "input") as [ji|]; [|discriminate].
  destruct ji; try discriminate.
  unfold dict_get.
  assert (Hrest : forall t v,
    (if negb (truthy v)
     then ret {[ "error" := VStr required_field_message ]}
     else
       bind (lift (b64decode v)) (fun speaker_wav_bytes =>
       bind (pipeline_tts t speaker_wav_bytes) (fun wav_bytes =>
       bind (lift (b64encode wav_bytes)) (fun encoded =>
       bind (lift (decode_utf8 encoded)) (fun wav_base64 =>
       ret {[ "audio_base64" := VStr wav_base64 ]}))))) w = (inr r, w') ->
    (exists E, r = {[ "audio_base64" := VStr E ]})
    \/ r = {[ "error" := VStr required_field_message ]}).
  { intros t v. unfold bind.
    destruct (truthy v); cbn [negb].
    - destruct (b64decode v) as [e|wav]; cbn [lift raise ret];
        [discriminate|].
      destruct (pipeline_tts t wav w) as [[e|wb] w1]; [discriminate|].
      destruct (b64encode wb) as [e|enc]; cbn [lift raise ret];
        [discriminate|].
      destruct (decode_utf8 enc) as [e|E]; cbn [lift raise ret];
        [discriminate|].
      intros H. injection H as <- _. left. eauto.
    - unfold ret. intros H. injection H as <- _. right. reflexivity. }
  destruct (d0 !! "text") as [t|];
    destruct (d0 !! "speaker_wav_base64") as [v|]; cbn [ret];
    apply Hrest.
Qed.

(** The handler on a Job that reaches the Model Session. *)
Lemma handler_reaches_tts (l : loc) (w : world) (m inp : gmap string value)
    (v : value) (wav : list byte) (p : loc) (st : Session) :
  heap w !! l = Some (OValue (VDict m)) ->
  m !! "input" = Some (VDict inp) ->
  inp !! "speaker_wav_base64" = Some v ->
  truthy v = true ->
  b64decode v = inr wav ->
  pipeline w = Some p ->
  heap w !! p = Some (OPipeline st) ->
  let text := default (VStr default_text) (inp !! "text") in
  let w' :=
    set_heap (<[p := OPipeline (snd (kokoro_tts st text wav))]> (heap w))
      (log_call (mkCall p text wav) w) in
  handler l w =
    match fst (kokoro_tts st text wav) with
    | inl e => (inl e, w')
    | inr wav_bytes =>
        match b64encode wav_bytes with
        | inl e => (inl e, w')
        | inr encoded =>
            match decode_utf8 encoded with
            | inl e => (inl e, w')
            | inr wav_base64 =>
                (inr {[ "audio_base64" := VStr wav_base64 ]}, w')
            end
        end
    end.
Proof.
  intros Hl Hin Hv Ht Hdec Hp Hst text w'.
  rewrite (handler_on_input l w m inp Hl Hin). cbv zeta.
  rewrite Hv. cbn [from_option id]. rewrite Ht, Hdec.
  rewrite (pipeline_tts_ready _ _ _ p st Hp Hst). reflexivity.
Qed.

Lemma truthy_nonempty_string (s : string) : s <> "" -> truthy (VStr s) = true.
Proof. destruct s; [congruence | reflexivity]. Qed.

(** C2: on a well-formed Job (its [input] a mapping, [speaker_wav_base64]
    a non-empty string of the base64 shape) and with the session ready, if
    the [tts] call the handler makes returns the bytes [B], the handler
    returns [{"audio_base64": E}] where [E] decodes to exactly [B], and
    exactly one call is added to the log: on the session the global names,
    with the Job's text (the placeholder when the Job has none) and the
    bytes decoded from [speaker_wav_base64]. *)
Theorem well_formed_job_succeeds (l : loc) (w : world)
    (m inp : gmap string value) (s : string) (p : loc) (st st' : Session)
    (B : list byte) :
  heap w !! l = Some (OValue (VDict m)) ->
  m !! "input" = Some (VDict inp) ->
  inp !! "speaker_wav_base64" = Some (VStr s) ->
  s <> "" ->
  valid_base64 s = true ->
  pipeline w = Some p ->
  heap w !! p = Some (OPipeline st) ->
  (forall wav, b64decode (VStr s) = inr wav ->
     kokoro_tts st (default (VStr "Hello, this is a test.") (inp !! "text"))
       wav = (inr (VBytes B), st')) ->
  exists (wav : list byte) (E : string) (w' : world),
    b64decode (VStr s) = inr wav
    /\ handler l w = (inr {[ "audio_base64" := VStr E ]}, w')
    /\ b64decode (VStr E) = inr B
    /\ calls w' =
         calls w
         ++ [mkCall p (default (VStr "Hello, this is a test.") (inp !! "text"))
               wav].
Proof.
  intros Hl Hin Hv Hne Hvalid Hp Hst Htts.
  destruct (valid_base64_decodes s Hvalid) as [wav Hdec].
  exists wav, (string_of_list_byte (b2a_base64 B)). eexists.
  split; [exact Hdec|].
  rewrite (handler_reaches_tts l w m inp (VStr s) wav p st Hl Hin Hv
             (truthy_nonempty_string s Hne) Hdec Hp Hst).
  cbv zeta. unfold default_text. rewrite (Htts wav Hdec). cbn [fst snd].
  cbn [b64encode]. rewrite decode_utf8_b2a.
  split; [reflexivity|]. split; [apply b64decode_b2a|].
  reflexivity.
Qed.

(** C3: when the [input] mapping has no [text] and [speaker_wav_base64]
    passes the check, every [tts] call the handler makes carries the text
    ["Hello, this is a test."]; and it does make that call, once, as soon
    as the value decodes and the session is ready. *)
Theorem absent_text_defaults (l : loc) (w : world)
    (m inp : gmap string value) (v : value) :
  heap w !! l = Some (OValue (VDict m)) ->
  m !! "input" = Some (VDict inp) ->
  inp !! "text" = None ->
  inp !! "speaker_wav_base64" = Some v ->
  truthy v = true ->
  (forall c, c ∈ calls (snd (handler l w)) ->
     c ∈ calls w \/ call_text c = VStr "Hello, this is a test.")
  /\ (forall wav p st,
        b64decode v = inr wav ->
        pipeline w = Some p ->
        heap w !! p = Some (OPipeline st) ->
        calls (snd (handler l w)) =
          calls w ++ [mkCall p (VStr "Hello, this is a test.") wav]).
Proof.
  intros Hl Hin Htext Hv Ht. split.
  - intros c. rewrite (handler_on_input l w m inp Hl Hin). cbv zeta.
    rewrite Htext, Hv. cbn [from_option id]. rewrite Ht.
    destruct (b64decode v) as [e|wav]; [cbn [snd]; auto|].
    destruct (pipeline_tts_world (VStr default_text) wav w)
      as [Hsame | (p & st & st1 & Hp & Hst & Hw')].
    + destruct (pipeline_tts (VStr default_text) wav w) as [[e|wb] w'].
      * cbn [snd] in *. subst w'. auto.
      * cbn [snd] in Hsame. subst w'.
        destruct (b64encode wb) as [e|enc]; [cbn [snd]; auto|].
        destruct (decode_utf8 enc) as [e|E]; cbn [snd]; auto.
    + assert (Hcalls : forall w1 : world,
                w1 = snd (pipeline_tts (VStr default_text) wav w) ->
                c ∈ calls w1 ->
                c ∈ calls w \/ call_text c = VStr "Hello, this is a test.").
      { intros w1 ->. rewrite Hw'. cbn [calls set_heap log_call].
        rewrite elem_of_app, list_elem_of_singleton.
        intros [Hc | ->]; [left; exact Hc | right; reflexivity]. }
      destruct (pipeline_tts (VStr default_text) wav w) as [[e|wb] w1].
      * apply Hcalls. reflexivity.
      * destruct (b64encode wb) as [e|enc]; [apply Hcalls; reflexivity|].
        destruct (decode_utf8 enc) as [e|E]; apply Hcalls; reflexivity.
  - intros wav p st Hdec Hp Hst.
    rewrite (handler_reaches_tts l w m inp v wav p st Hl Hin Hv Ht Hdec Hp Hst).
    cbv zeta. rewrite Htext. cbn [from_option id].
    destruct (fst (kokoro_tts st (VStr default_text) wav)) as [e|wb];
      [reflexivity|].
    destruct (b64encode wb) as [e|enc]; [reflexivity|].
    destruct (decode_utf8 enc) as [e|E]; reflexivity.
Qed.

(** C5, as the code has it: for a Job whose [speaker_wav_base64] is a
    non-empty string, the handler never returns the error Response; and
    when [base64.b64decode] (lenient: characters outside the alphabet are
    dropped, input after a completed padding is ignored) rejects the
    string, that failure leaves the handler uncaught, with the world as it
    was, so before any [tts] call.  A string the decoder accepts goes on
    to synthesis, well-shaped or not. *)
Theorem rejected_encoding_propagates (l : loc) (w : world)
    (m inp : gmap string value) (s : string) :
  heap w !! l = Some (OValue (VDict m)) ->
  m !! "input" = Some (VDict inp) ->
  inp !! "speaker_wav_base64" = Some (VStr s) ->
  s <> "" ->
  (forall w', handler l w <>
     (inr {[ "error" := VStr "speaker_wav_base64 is a required field." ]}, w'))
  /\ (forall e, b64decode (VStr s) = inl e -> handler l w = (inl e, w))
  /\ (forall wav, b64decode (VStr s) = inr wav ->
        exists text,
          handler l w =
            bind (pipeline_tts text wav) (fun wav_bytes =>
            bind (lift (b64encode wav_bytes)) (fun encoded =>
            bind (lift (decode_utf8 encoded)) (fun wav_base64 =>
            ret {[ "audio_base64" := VStr wav_base64 ]}))) w).
Proof.
  intros Hl Hin Hv Hne.
  pose proof (handler_on_input l w m inp Hl Hin) as Hh. cbv zeta in Hh.
  rewrite Hv in Hh. cbn [from_option id] in Hh.
  rewrite (truthy_nonempty_string s Hne) in Hh.
  split; [|split].
  - intros w' Heq. rewrite Hh in Heq.
    destruct (b64decode (VStr s)) as [e|wav]; [discriminate|].
    destruct (pipeline_tts _ wav w) as [[e|wb] w1]; [discriminate|].
    destruct (b64encode wb) as [e|enc]; [discriminate|].
    destruct (decode_utf8 enc) as [e|E]; [discriminate|].
    apply (f_equal (fun x : (exn + gmap string value) * world =>
                      match fst x with
                      | inr r => r !! "error"
                      | inl _ => None
                      end)) in Heq.
    cbn [fst] in Heq. rewrite lookup_singleton_eq in Heq.
    rewrite lookup_singleton_ne in Heq by discriminate. discriminate.
  - intros e He. rewrite Hh, He. reflexivity.
  - intros wav Hwav. exists (default (VStr default_text) (inp !! "text")).
    rewrite Hh, Hwav. unfold bind.
    destruct (pipeline_tts _ wav w) as [[e|wb] w1]; [reflexivity|].
    destruct (b64encode wb) as [e|enc]; cbn [lift raise ret]; [reflexivity|].
    destruct (decode_utf8 enc) as [e|E]; reflexivity.
Qed.

(** C7: whatever the handler returns is one of the two Responses: the
    mapping whose only key is [audio_base64] (a string), or the mapping
    whose only key is [error]; never both keys, never another key. *)
Theorem response_shape (l : loc) (w w' : world) (r : gmap string value) :
  handler l w = (inr r, w') ->
  (exists E, r = {[ "audio_base64" := VStr E ]}
             /\ dom r = {[ "audio_base64" ]} /\ r !! "error" = None)
  \/ (exists msg, r = {[ "error" := VStr msg ]}
                  /\ dom r = {[ "error" ]} /\ r !! "audio_base64" = None).
Proof.
  intros H. destruct (handler_returns l w w' r H) as [[E ->] | ->].
  - left. exists E. split; [reflexivity|]. split.
    + apply dom_singleton_L.
    + apply lookup_singleton_ne. discriminate.
  - right. exists required_field_message. split; [reflexivity|]. split.
    + apply dom_singleton_L.
    + apply lookup_singleton_ne. discriminate.
Qed.

(** C10: a Job mapping without the key [input] makes the handler raise
    [KeyError('input')]; the world is as it was: nothing was validated,
    decoded or synthesised, and no Response is returned. *)
Theorem missing_input_raises (l : loc) (w : world) (m : gmap string value) :
  heap w !! l = Some (OValue (VDict m)) ->
  m !! "input" = None ->
  handler l w = (inl (KeyError "input"), w).
Proof.
  intros Hl Hin. unfold handler, bind, getitem.
  rewrite Hl, Hin. reflexivity.
Qed.

(** C9: the handler leaves the Job as it found it.  Every value object of
    the heap, the Job the handler was called with among them, is the same
    after the call, whatever the outcome (a Response or a failure). *)
Theorem job_unchanged (l : loc) (w : world) (job : value) :
  heap w !! l = Some (OValue job) ->
  heap (snd (handler l w)) !! l = Some (OValue job)
  /\ (forall l' v, heap w !! l' = Some (OValue v) ->
        heap (snd (handler l w)) !! l' = Some (OValue v)).
Proof.
  assert (H : forall l' v, heap w !! l' = Some (OValue v) ->
                heap (snd (handler l w)) !! l' = Some (OValue v)).
  { intros l' v Hv.
    destruct (handler_world l w) as [-> | (text & wav & ->)]; [exact Hv|].
    destruct (pipeline_tts_world text wav w)
      as [-> | (p & st & st1 & Hp & Hst & ->)]; [exact Hv|].
    cbn [heap set_heap log_call].
    rewrite lookup_insert_ne; [exact Hv|].
    intros ->. rewrite Hst in Hv. discriminate. }
  intros Hl. split; [apply H, Hl | exact H].
Qed.

(** C8: the handler's outcome is a function of the Job.  Two calls on
    equal Jobs, in any two worlds where the module is loaded, with a
    [tts] whose result depends on its arguments only, end alike: the same
    Response, or the same failure.  The heap, the log and the session
    state do not count. *)
Theorem handler_deterministic (l1 l2 : loc) (w1 w2 : world) (job : value) :
  heap w1 !! l1 = Some (OValue job) ->
  heap w2 !! l2 = Some (OValue job) ->
  ready w1 ->
  ready w2 ->
  (forall st st' text wav,
     fst (kokoro_tts st text wav) = fst (kokoro_tts st' text wav)) ->
  fst (handler l1 w1) = fst (handler l2 w2).
Proof.
  intros Hl1 Hl2 (p1 & st1 & Hp1 & Hst1) (p2 & st2 & Hp2 & Hst2) Hdet.
  unfold handler, bind, getitem. rewrite Hl1, Hl2.
  destruct job; try reflexivity.
  destruct (d !! "input") as [ji|]; [|reflexivity].
  destruct ji; try reflexivity.
  unfold dict_get.
  assert (Hrest : forall t v (k : M (gmap string value)),
    k = (if negb (truthy v)
         then ret {[ "error" := VStr required_field_message ]}
         else
           bind (lift (b64decode v)) (fun speaker_wav_bytes =>
           bind (pipeline_tts t speaker_wav_bytes) (fun wav_bytes =>
           bind (lift (b64encode wav_bytes)) (fun encoded =>
           bind (lift (decode_utf8 encoded)) (fun wav_base64 =>
           ret {[ "audio_base64" := VStr wav_base64 ]}))))) ->
    fst (k w1) = fst (k w2)).
  { intros t v k ->. unfold bind.
    destruct (truthy v); cbn [negb]; [|reflexivity].
    destruct (b64decode v) as [e|wav]; cbn [lift raise ret]; [reflexivity|].
    rewrite (pipeline_tts_ready t wav w1 p1 st1 Hp1 Hst1).
    rewrite (pipeline_tts_ready t wav w2 p2 st2 Hp2 Hst2).
    rewrite (Hdet st1 st2 t wav).
    destruct (fst (kokoro_tts st2 t wav)) as [e|wb]; [reflexivity|].
    destruct (b64encode wb) as [e|enc]; cbn [lift raise ret]; [reflexivity|].
    destruct (decode_utf8 enc) as [e|E]; reflexivity. }
  destruct (d0 !! "text") as [t|];
    destruct (d0 !! "speaker_wav_base64") as [v|]; cbn [ret];
    eapply Hrest; reflexivity.
Qed.

(** ** The life of the process *)

Abbreviation main := (main kokoro_init kokoro_tts).
Abbreviation object := (object (Session := Session)).

Lemma handler_keeps_globals (l : loc) (w : world) :
  pipeline (snd (handler l w)) = pipeline w
  /\ constructed (snd (handler l w)) = constructed w.
Proof.
  destruct (handler_world l w) as [-> | (text & wav & ->)]; [auto|].
  destruct (pipeline_tts_world text wav w)
    as [-> | (p & st & st1 & Hp & Hst & ->)]; auto.
Qed.

Lemma handler_calls (l : loc) (w : world) (p : loc) (c : call) :
  pipeline w = Some p ->
  c ∈ calls (snd (handler l w)) ->
  c ∈ calls w \/ call_self c = p.
Proof.
  intros Hp.
  destruct (handler_world l w) as [-> | (text & wav & ->)]; [auto|].
  destruct (pipeline_tts_world text wav w)
    as [-> | (p' & st & st1 & Hp' & Hst & ->)]; [auto|].
  cbn [calls set_heap log_call].
  rewrite elem_of_app, list_elem_of_singleton.
  intros [Hc | ->]; [left; exact Hc | right].
  cbn [call_self]. congruence.
Qed.

(** The worker hands every Job to the handler and keeps going; the global
    and the list of constructed sessions stay as they are, and every call
    is made on the session the global names. *)
Lemma worker_invariant (jobs : list value) :
  forall (w : world) (p : loc),
    pipeline w = Some p ->
    (forall c, c ∈ calls w -> call_self c = p) ->
    exists outs w',
      runpod_serverless_start handler jobs w = (inr outs, w')
      /\ length outs = length jobs
      /\ pipeline w' = Some p
      /\ constructed w' = constructed w
      /\ (forall c, c ∈ calls w' -> call_self c = p).
Proof.
  induction jobs as [|job rest IH]; intros w p Hp Hcalls.
  - exists [], w. cbn. auto.
  - cbn [runpod_serverless_start]. unfold deliver.
    set (w0 := set_heap _ w).
    pose proof (handler_keeps_globals (fresh (dom (heap w))) w0) as [Hg Hc].
    assert (Hcalls0 : forall c, c ∈ calls (snd (handler (fresh (dom (heap w))) w0)) ->
                        call_self c = p).
    { intros c Hin.
      destruct (handler_calls _ w0 p c Hp Hin) as [Hold | Hnew];
        [apply Hcalls, Hold | exact Hnew]. }
    destruct (handler (fresh (dom (heap w))) w0) as [o w1].
    cbn [snd] in Hg, Hc, Hcalls0.
    destruct (IH w1 p) as (outs & w' & Hrun & Hlen & Hp' & Hc' & Hcalls');
      [rewrite Hg; exact Hp | exact Hcalls0 |].
    rewrite Hrun. exists (o :: outs), w'.
    split; [reflexivity|]. split; [cbn; lia|]. split; [exact Hp'|].
    split; [rewrite Hc', Hc; reflexivity | exact Hcalls'].
Qed.

Lemma worker_app (jobs1 jobs2 : list value) :
  forall (w w1 : world) (outs1 : list outcome),
    runpod_serverless_start handler jobs1 w = (inr outs1, w1) ->
    runpod_serverless_start handler (jobs1 ++ jobs2) w =
      match runpod_serverless_start handler jobs2 w1 with
      | (inr outs2, w2) => (inr (outs1 ++ outs2), w2)
      | (inl e, w2) => (inl e, w2)
      end.
Proof.
  induction jobs1 as [|job rest IH]; intros w w1 outs1 H.
  - cbn in H. injection H as <- <-. cbn [app].
    destruct (runpod_serverless_start handler jobs2 w) as [[e|outs2] w2];
      reflexivity.
  - cbn [runpod_serverless_start app] in *.
    destruct (deliver handler job w) as [o w0].
    destruct (runpod_serverless_start handler rest w0) as [[e|outs] w'] eqn:E;
      [discriminate|].
    injection H as <- <-. rewrite (IH w0 w' outs E).
    destruct (runpod_serverless_start handler jobs2 w') as [[e|outs2] w2];
      reflexivity.
Qed.

(** The module up to the start of the worker. *)
Lemma main_unfold (jobs : list value) (st : Session) :
  kokoro_init true = inr st ->
  main jobs process_start =
    runpod_serverless_start handler jobs
      (mkWorld {[ fresh (dom (∅ : gmap loc object)) := OPipeline st ]}
         (Some (fresh (dom (∅ : gmap loc object))))
         [(fresh (dom (∅ : gmap loc object)), true)] []
         ["TTS Pipeline Initialized."]).
Proof.
  intros Hinit. unfold main, bind, KokoroV1Pipeline.
  rewrite Hinit. reflexivity.
Qed.

(** What a call of the handler can do to the heap: nothing, or a new state
    for the session the global names. *)
Lemma handler_heap (l : loc) (w : world) :
  heap (snd (handler l w)) = heap w
  \/ exists p st st',
      pipeline w = Some p /\ heap w !! p = Some (OPipeline st)
      /\ heap (snd (handler l w)) = <[p := OPipeline st']> (heap w).
Proof.
  destruct (handler_world l w) as [-> | (text & wav & ->)]; [auto|].
  destruct (pipeline_tts_world text wav w)
    as [-> | (p & st & st1 & Hp & Hst & ->)]; [auto|].
  right. exists p, st, st1. auto.
Qed.

(** The session the global names stays a session, at the same place. *)
Lemma handler_keeps_session (l : loc) (w : world) (p : loc) (st : Session) :
  pipeline w = Some p ->
  heap w !! p = Some (OPipeline st) ->
  exists st', heap (snd (handler l w)) !! p = Some (OPipeline st').
Proof.
  intros Hp Hst.
  destruct (handler_heap l w) as [-> | (p' & st0 & st1 & Hp' & Hst' & ->)];
    [eauto|].
  assert (p' = p) by congruence. subst p'.
  exists st1. apply lookup_insert_eq.
Qed.

(** No call of the handler brings a session into being. *)
Lemma handler_no_new_session (l : loc) (w : world) (p : loc) :
  (forall l' st', heap w !! l' = Some (OPipeline st') -> l' = p) ->
  forall l' st', heap (snd (handler l w)) !! l' = Some (OPipeline st') ->
                 l' = p.
Proof.
  intros Honly l' st'.
  destruct (handler_heap l w) as [-> | (p' & st0 & st1 & Hp' & Hst' & ->)];
    [apply Honly|].
  destruct (decide (p' = l')) as [<- | Hne].
  - intros _. apply (Honly p' st0 Hst').
  - rewrite lookup_insert_ne by exact Hne. apply Honly.
Qed.

(** The worker keeps the one session alive and alone: after any number of
    Jobs the object the global names is a session, and no other object of
    the heap is one. *)
Lemma worker_session (jobs : list value) :
  forall (w : world) (p : loc),
    pipeline w = Some p ->
    (exists st, heap w !! p = Some (OPipeline st)) ->
    (forall l' st', heap w !! l' = Some (OPipeline st') -> l' = p) ->
    (exists st,
       heap (snd (runpod_serverless_start handler jobs w)) !! p
       = Some (OPipeline st))
    /\ (forall l' st',
          heap (snd (runpod_serverless_start handler jobs w)) !! l'
          = Some (OPipeline st') -> l' = p).
Proof.
  induction jobs as [|job rest IH]; intros w p Hp Hlive Honly.
  - cbn. auto.
  - cbn [runpod_serverless_start]. unfold deliver, outcome. cbv beta zeta.
    set (l := fresh (dom (heap w))).
    set (w0 := set_heap (<[l := OValue job]> (heap w)) w).
    destruct Hlive as [st Hst].
    assert (Hne : l <> p).
    { intros Heq. pose proof (is_fresh (dom (heap w))) as Hfresh.
      fold l in Hfresh. rewrite Heq in Hfresh. apply Hfresh.
      apply elem_of_dom. rewrite Hst. eauto. }
    assert (Hst0 : heap w0 !! p = Some (OPipeline st)).
    { unfold w0. cbn [heap set_heap]. rewrite lookup_insert_ne by exact Hne.
      exact Hst. }
    assert (Honly0 : forall l' st',
              heap w0 !! l' = Some (OPipeline st') -> l' = p).
    { intros l' st'. unfold w0. cbn [heap set_heap].
      destruct (decide (l = l')) as [<- | Hne'].
      - rewrite lookup_insert_eq. discriminate.
      - rewrite lookup_insert_ne by exact Hne'. apply Honly. }
    pose proof (handler_keeps_globals l w0) as [Hg _].
    pose proof (handler_keeps_session l w0 p st Hp Hst0) as Hlive1.
    pose proof (handler_no_new_session l w0 p Honly0) as Honly1.
    destruct (handler l w0) as [o w1]. cbn [snd] in Hg, Hlive1, Honly1.
    assert (Hp1 : pipeline w1 = Some p) by (rewrite Hg; exact Hp).
    specialize (IH w1 p Hp1 Hlive1 Honly1).
    destruct (runpod_serverless_start handler rest w1) as [[e|outs] w2];
      exact IH.
Qed.

(** C6: when the constructor returns, the process has exactly one
    Model Session, built before the first Job: after any number of Jobs
    ([jobs1]), and after any further Jobs ([jobs2]), the list of
    constructed sessions is the same single entry, the global [pipeline]
    names it, and every [tts] call of the log was made on it.  The object
    the global names is a live session throughout (right after start-up it
    is the one the constructor returned), and it is the only session in
    the heap.  No call of the handler constructs a session, assigns the
    global, or turns the session into something else. *)
Theorem model_session_constructed_once (jobs1 jobs2 : list value)
    (st : Session) :
  kokoro_init true = inr st ->
  (exists (p : loc) (outs1 outs2 : list outcome) (w1 w2 : world),
     main jobs1 process_start = (inr outs1, w1)
     /\ runpod_serverless_start handler jobs2 w1 = (inr outs2, w2)
     /\ main (jobs1 ++ jobs2) process_start = (inr (outs1 ++ outs2), w2)
     /\ length outs1 = length jobs1 /\ length outs2 = length jobs2
     /\ constructed w1 = [(p, true)] /\ pipeline w1 = Some p
     /\ constructed w2 = [(p, true)] /\ pipeline w2 = Some p
     /\ (forall c, c ∈ calls w2 -> call_self c = p)
     /\ heap (snd (main [] process_start)) !! p = Some (OPipeline st)
     /\ (exists st1, heap w1 !! p = Some (OPipeline st1))
     /\ (exists st2, heap w2 !! p = Some (OPipeline st2))
     /\ (forall l' st', heap w1 !! l' = Some (OPipeline st') -> l' = p)
     /\ (forall l' st', heap w2 !! l' = Some (OPipeline st') -> l' = p))
  /\ (forall l w,
        pipeline (snd (handler l w)) = pipeline w
        /\ constructed (snd (handler l w)) = constructed w)
  /\ (forall l w p st0,
        pipeline w = Some p ->
        heap w !! p = Some (OPipeline st0) ->
        exists st', heap (snd (handler l w)) !! p = Some (OPipeline st')).
Proof.
  intros Hinit.
  split; [|split; [apply handler_keeps_globals | apply handler_keeps_session]].
  set (p := fresh (dom (∅ : gmap loc object))).
  rewrite !(main_unfold _ st Hinit). fold p.
  set (w0 := mkWorld _ _ _ _ _).
  assert (Hp0 : pipeline w0 = Some p) by reflexivity.
  assert (Hst0 : heap w0 !! p = Some (OPipeline st))
    by (unfold w0; cbn [heap]; apply lookup_singleton_eq).
  assert (Honly0 : forall l' st',
            heap w0 !! l' = Some (OPipeline st') -> l' = p).
  { intros l' st'. unfold w0. cbn [heap].
    destruct (decide (p = l')) as [<- | Hne]; [reflexivity|].
    rewrite lookup_singleton_ne by exact Hne. discriminate. }
  destruct (worker_invariant jobs1 w0 p) as (outs1 & w1 & H1 & L1 & P1 & C1 & K1).
  { reflexivity. }
  { intros c Hc. cbn in Hc. apply elem_of_nil in Hc. contradiction. }
  destruct (worker_invariant jobs2 w1 p P1 K1)
    as (outs2 & w2 & H2 & L2 & P2 & C2 & K2).
  pose proof (worker_session jobs1 w0 p Hp0 (ex_intro _ st Hst0) Honly0)
    as [Hlive1 Honly1].
  rewrite H1 in Hlive1, Honly1. cbn [snd] in Hlive1, Honly1.
  pose proof (worker_session jobs2 w1 p P1 Hlive1 Honly1) as [Hlive2 Honly2].
  rewrite H2 in Hlive2, Honly2. cbn [snd] in Hlive2, Honly2.
  exists p, outs1, outs2, w1, w2.
  rewrite (worker_app jobs1 jobs2 w0 w1 outs1 H1), H1, H2.
  rewrite C2, C1. cbn [runpod_serverless_start ret snd].
  repeat split; auto.
Qed.

End HandlerProperties.

(** ** The decoder on examples *)

Example decode_plain : b64decode (VStr "QUJD") = inr (list_byte_of_string "ABC").
Proof. reflexivity. Qed.

Example decode_skips_space :
  b64decode (VStr "QU JD") = inr (list_byte_of_string "ABC").
Proof. reflexivity. Qed.

Example decode_skips_everything : b64decode (VStr "!!!!") = inr [].
Proof. reflexivity. Qed.

Example decode_stops_at_padding :
  b64decode (VStr "QUI=QUJD") = inr (list_byte_of_string "AB").
Proof. reflexivity. Qed.

Example decode_cut_short :
  b64decode (VStr "QUJ") = inl (BinasciiError IncorrectPadding).
Proof. reflexivity. Qed.

Example decode_one_left_over :
  b64decode (VStr "QUJDR") = inl (BinasciiError (InvalidLength 5)).
Proof. reflexivity. Qed.

Example decode_not_bytes_like : b64decode (VInt 7) = inl TypeError.
Proof. reflexivity. Qed.

Example encode_five : b64encode (VBytes (list_byte_of_string "ABCDE"))
                      = inr (list_byte_of_string "QUJDREU=").
Proof. reflexivity. Qed.

(** A non-ASCII string is refused before any decoding. *)
Lemma decode_non_ascii (s : string) :
  forallb is_ascii (list_byte_of_string s) = false ->
  b64decode (VStr s) = inl ValueError.
Proof. intros H. cbn [b64decode]. unfold encode_ascii. rewrite H. reflexivity. Qed.

(** ** The theorems at work *)

Lemma missing_speaker_wav_rejected_witness :
  handler echo_tts 1%positive (example_world job_empty_input) =
    (inr {[ "error" := VStr "speaker_wav_base64 is a required field." ]},
     example_world job_empty_input)
  /\ calls (snd (handler echo_tts 1%positive (example_world job_empty_input)))
     = calls (example_world job_empty_input).
Proof.
  apply (missing_speaker_wav_rejected echo_tts 1%positive
           (example_world job_empty_input) {[ "input" := VDict ∅ ]} ∅).
  - reflexivity.
  - reflexivity.
  - left. reflexivity.
Defined.

Lemma well_formed_job_succeeds_witness :
  exists (wav : list byte) (E : string) (w' : world),
    b64decode (VStr "QUJD") = inr wav
    /\ handler echo_tts 1%positive (example_world job_hello) =
         (inr {[ "audio_base64" := VStr E ]}, w')
    /\ b64decode (VStr E) = inr (list_byte_of_string "ABC")
    /\ calls w' =
         calls (example_world job_hello)
         ++ [mkCall 2%positive
               (default (VStr "Hello, this is a test.")
                  (({[ "text" := VStr "Hello world";
                       "speaker_wav_base64" := VStr "QUJD" ]}
                    : gmap string value) !! "text"))
               wav].
Proof.
  apply (well_formed_job_succeeds echo_tts 1%positive (example_world job_hello)
           {[ "input" :=
                VDict {[ "text" := VStr "Hello world";
                         "speaker_wav_base64" := VStr "QUJD" ]} ]}
           {[ "text" := VStr "Hello world";
              "speaker_wav_base64" := VStr "QUJD" ]}
           "QUJD" 2%positive 0%nat 1%nat (list_byte_of_string "ABC")).
  - reflexivity.
  - reflexivity.
  - reflexivity.
  - discriminate.
  - reflexivity.
  - reflexivity.
  - reflexivity.
  - intros wav H. vm_compute in H. injection H as <-. reflexivity.
Defined.

Lemma absent_text_defaults_witness :
  calls (snd (handler echo_tts 1%positive (example_world job_no_text))) =
    calls (example_world job_no_text)
    ++ [mkCall 2%positive (VStr "Hello, this is a test.")
          (list_byte_of_string "ABC")].
Proof.
  apply (proj2 (absent_text_defaults echo_tts 1%positive
                  (example_world job_no_text)
                  {[ "input" :=
                       VDict {[ "speaker_wav_base64" := VStr "QUJD" ]} ]}
                  {[ "speaker_wav_base64" := VStr "QUJD" ]} (VStr "QUJD")
                  eq_refl eq_refl eq_refl eq_refl eq_refl)
           (list_byte_of_string "ABC") 2%positive 0%nat);
    reflexivity.
Defined.

(** C5 as the spec words it fails: ["QU JD"] is not a base64 encoding (a
    space is not in the alphabet, the length is not a multiple of four),
    yet the handler decodes it to the bytes of ["ABC"], calls [tts] and
    returns a success Response. *)
Lemma lenient_decoding_counterexample :
  ~ (forall (l : loc) (w : world (Session := nat))
            (m inp : gmap string value) (s : string),
       heap w !! l = Some (OValue (VDict m)) ->
       m !! "input" = Some (VDict inp) ->
       inp !! "speaker_wav_base64" = Some (VStr s) ->
       s <> "" ->
       valid_base64 s = false ->
       exists e w', handler echo_tts l w = (inl e, w')).
Proof.
  intros H.
  destruct (H 1%positive (example_world job_spaced)
              {[ "input" := VDict {[ "speaker_wav_base64" := VStr "QU JD" ]} ]}
              {[ "speaker_wav_base64" := VStr "QU JD" ]} "QU JD"
              eq_refl eq_refl eq_refl ltac:(discriminate) eq_refl)
    as (e & w' & Heq).
  apply (f_equal (fun x : (exn + gmap string value) * world =>
                    match fst x with
                    | inr _ => true
                    | inl _ => false
                    end)) in Heq.
  vm_compute in Heq. discriminate.
Qed.

Example spaced_job_is_synthesised :
  fst (handler echo_tts 1%positive (example_world job_spaced))
  = inr {[ "audio_base64" := VStr "QUJD" ]}
  /\ calls (snd (handler echo_tts 1%positive (example_world job_spaced)))
     = [mkCall 2%positive (VStr "Hello, this is a test.")
          (list_byte_of_string "ABC")].
Proof. split; vm_compute; reflexivity. Qed.

Lemma rejected_encoding_propagates_witness :
  handler echo_tts 1%positive (example_world job_cut_short) =
    (inl (BinasciiError IncorrectPadding), example_world job_cut_short).
Proof.
  apply (proj1 (proj2 (rejected_encoding_propagates echo_tts 1%positive
                         (example_world job_cut_short)
                         {[ "input" :=
                              VDict {[ "speaker_wav_base64" := VStr "QUJ" ]} ]}
                         {[ "speaker_wav_base64" := VStr "QUJ" ]} "QUJ"
                         eq_refl eq_refl eq_refl ltac:(discriminate)))).
  reflexivity.
Defined.

Lemma response_shape_witness :
  (exists E, ({[ "error" := VStr "speaker_wav_base64 is a required field." ]}
              : gmap string value) = {[ "audio_base64" := VStr E ]}
             /\ dom ({[ "error" := VStr "speaker_wav_base64 is a required field." ]}
                     : gmap string value) = {[ "audio_base64" ]}
             /\ ({[ "error" := VStr "speaker_wav_base64 is a required field." ]}
                 : gmap string value) !! "error" = None)
  \/ (exists msg,
        ({[ "error" := VStr "speaker_wav_base64 is a required field." ]}
         : gmap string value) = {[ "error" := VStr msg ]}
        /\ dom ({[ "error" := VStr "speaker_wav_base64 is a required field." ]}
                : gmap string value) = {[ "error" ]}
        /\ ({[ "error" := VStr "speaker_wav_base64 is a required field." ]}
            : gmap string value) !! "audio_base64" = None).
Proof.
  apply (response_shape echo_tts 1%positive (example_world job_empty_input)
           (example_world job_empty_input)).
  reflexivity.
Defined.

Lemma handler_deterministic_witness :
  fst (handler echo_tts 1%positive (example_world job_hello))
  = fst (handler echo_tts 5%positive (example_world' job_hello)).
Proof.
  apply (handler_deterministic echo_tts 1%positive 5%positive
           (example_world job_hello) (example_world' job_hello) job_hello).
  - reflexivity.
  - reflexivity.
  - exists 2%positive, 0%nat. split; reflexivity.
  - exists 3%positive, 7%nat. split; reflexivity.
  - intros st st' text wav. reflexivity.
Defined.

Lemma job_unchanged_witness :
  heap (snd (handler echo_tts 1%positive (example_world job_hello)))
    !! 1%positive = Some (OValue job_hello).
Proof.
  apply (proj1 (job_unchanged echo_tts 1%positive (example_world job_hello)
                  job_hello eq_refl)).
Defined.

Lemma missing_input_raises_witness :
  handler echo_tts 1%positive (example_world job_no_input) =
    (inl (KeyError "input"), example_world job_no_input).
Proof.
  apply (missing_input_raises echo_tts 1%positive (example_world job_no_input)
           {[ "text" := VStr "Hello world" ]}).
  - reflexivity.
  - reflexivity.
Defined.

Lemma model_session_constructed_once_witness :
  exists (p : loc) (outs1 outs2 : list outcome) (w1 w2 : world),
    main echo_init echo_tts [job_hello; job_cut_short] process_start
      = (inr outs1, w1)
    /\ runpod_serverless_start (handler echo_tts) [job_no_text] w1
       = (inr outs2, w2)
    /\ main echo_init echo_tts ([job_hello; job_cut_short] ++ [job_no_text])
         process_start = (inr (outs1 ++ outs2), w2)
    /\ length outs1 = length [job_hello; job_cut_short]
    /\ length outs2 = length [job_no_text]
    /\ constructed w1 = [(p, true)] /\ pipeline w1 = Some p
    /\ constructed w2 = [(p, true)] /\ pipeline w2 = Some p
    /\ (forall c, c ∈ calls w2 -> call_self c = p)
    /\ heap (snd (main echo_init echo_tts [] process_start)) !! p
       = Some (OPipeline 0%nat)
    /\ (exists st1, heap w1 !! p = Some (OPipeline st1))
    /\ (exists st2, heap w2 !! p = Some (OPipeline st2))
    /\ (forall l' st', heap w1 !! l' = Some (OPipeline st') -> l' = p)
    /\ (forall l' st', heap w2 !! l' = Some (OPipeline st') -> l' = p).
Proof.
  apply (proj1 (model_session_constructed_once echo_init echo_tts
                  [job_hello; job_cut_short] [job_no_text] 0%nat eq_refl)).
Defined.

(** * Further properties of the code *)

(** ** The lenient decoder *)

(** One turn of the loop on a byte that is neither padding nor in the
    alphabet: nothing changes. *)
Lemma a2b_loop_skip (c : byte) (rest : list byte) (quad_pos leftchar pads : Z)
    (bin : list byte) :
  is_b64_significant c = false ->
  a2b_loop (c :: rest) quad_pos leftchar pads bin =
    a2b_loop rest quad_pos leftchar pads bin.
Proof.
  unfold is_b64_significant, is_b64_data. intros H.
  apply orb_false_iff in H. destruct H as [Hpad Hdata].
  rewrite Hpad in Hdata. cbn [negb andb] in Hdata.
  cbn [a2b_loop]. rewrite Hpad.
  apply Z.ltb_ge in Hdata.
  destruct (64 <=? table_a2b_base64 c) eqn:E; [reflexivity|].
  apply Z.leb_gt in E. lia.
Qed.

Lemma a2b_loop_significant (bs : list byte) :
  forall quad_pos leftchar pads bin,
    a2b_loop (significant bs) quad_pos leftchar pads bin =
      a2b_loop bs quad_pos leftchar pads bin.
Proof.
  induction bs as [|c rest IH]; intros quad_pos leftchar pads bin;
    [reflexivity|].
  unfold significant in *. cbn [List.filter].
  destruct (is_b64_significant c) eqn:Hc.
  - cbn [a2b_loop].
    destruct (byte_eqb c BASE64_PAD).
    + destruct (2 <=? quad_pos); [|apply IH].
      destruct (4 <=? quad_pos + (pads + 1)); [reflexivity | apply IH].
    + cbv zeta. destruct (64 <=? table_a2b_base64 c); [apply IH|].
      destruct quad_pos as [|[[q|q|]|[q|q|]|]|]; apply IH.
  - rewrite a2b_loop_skip by exact Hc. apply IH.
Qed.

Lemma significant_ascii (bs : list byte) :
  forallb is_ascii bs = true -> forallb is_ascii (significant bs) = true.
Proof.
  unfold significant. induction bs as [|c rest IH]; [reflexivity|].
  cbn [forallb List.filter]. intros H. apply andb_true_iff in H.
  destruct H as [Hc Hrest].
  destruct (is_b64_significant c); cbn [forallb]; [rewrite Hc|]; auto.
Qed.

(** X9: the decoder sees only the alphabet and the padding character.  Two
    ASCII strings that agree once every other character (spaces, line
    breaks, punctuation) is taken out are decoded alike by [b64decode]:
    the same bytes, or the same failure. *)
Theorem b64decode_ignores_other_characters (s1 s2 : string) :
  ascii_string s1 = true ->
  ascii_string s2 = true ->
  significant (list_byte_of_string s1) = significant (list_byte_of_string s2) ->
  b64decode (VStr s1) = b64decode (VStr s2).
Proof.
  unfold ascii_string. intros H1 H2 Hsig.
  cbn [b64decode]. unfold encode_ascii. rewrite H1, H2.
  unfold a2b_base64.
  rewrite <- (a2b_loop_significant (list_byte_of_string s1)).
  rewrite <- (a2b_loop_significant (list_byte_of_string s2)).
  rewrite Hsig. reflexivity.
Qed.

Lemma b64decode_ignores_other_characters_witness :
  b64decode (VStr "QU JD") = b64decode (VStr "Q.U,J!D").
Proof.
  apply b64decode_ignores_other_characters; reflexivity.
Defined.

Lemma a2b_loop_no_data (bs : list byte) :
  no_data bs = true ->
  forall leftchar pads bin, a2b_loop bs 0 leftchar pads bin = inr bin.
Proof.
  unfold no_data. induction bs as [|c rest IH]; intros H leftchar pads bin;
    [reflexivity|].
  cbn [forallb] in H. apply andb_true_iff in H. destruct H as [Hc Hrest].
  apply negb_true_iff in Hc. cbn [a2b_loop].
  destruct (byte_eqb c BASE64_PAD) eqn:Hpad.
  - cbn. apply IH, Hrest.
  - unfold is_b64_data in Hc. rewrite Hpad in Hc. cbn [negb andb] in Hc.
    cbv zeta. apply Z.ltb_ge in Hc.
    destruct (64 <=? table_a2b_base64 c) eqn:E; [apply IH, Hrest|].
    apply Z.leb_gt in E. lia.
Qed.

Lemma count_data_cons (c : byte) (rest : list byte) :
  count_data (c :: rest) =
    (if is_b64_data c then 1 else 0) + count_data rest.
Proof.
  unfold count_data. cbn [List.filter].
  destruct (is_b64_data c); cbn [length]; lia.
Qed.

Lemma count_data_nonneg (bs : list byte) : 0 <= count_data bs.
Proof. unfold count_data. lia. Qed.

(** The loop on an input without padding, started after [N] alphabet
    characters: it ends well exactly when the total is a multiple of four,
    and then three bytes were written for every four characters. *)
Lemma a2b_loop_no_padding (bs : list byte) :
  no_padding bs = true ->
  forall (N N' leftchar pads : Z) (bin : list byte),
    0 <= N ->
    Z.of_nat (length bin) = 3 * N / 4 ->
    N' = N + count_data bs ->
    match a2b_loop bs (N mod 4) leftchar pads bin with
    | inr out => N' mod 4 = 0 /\ Z.of_nat (length out) = 3 * N' / 4
    | inl e =>
        (N' mod 4 = 1 /\ e = BinasciiError (InvalidLength N'))
        \/ (2 <= N' mod 4 /\ e = BinasciiError IncorrectPadding)
    end.
Proof.
  unfold no_padding.
  induction bs as [|c rest IH]; intros Hnp N N' leftchar pads bin HN Hlen HN'.
  - change (count_data []) with 0 in HN'. rewrite Z.add_0_r in HN'. subst N'.
    cbn [a2b_loop].
    destruct (N mod 4 =? 0) eqn:E0.
    + apply Z.eqb_eq in E0. split; [exact E0 | exact Hlen].
    + apply Z.eqb_neq in E0.
      destruct (N mod 4 =? 1) eqn:E1.
      * apply Z.eqb_eq in E1. left. split; [exact E1|].
        do 2 f_equal. rewrite Hlen.
        Z.div_mod_to_equations. lia.
      * apply Z.eqb_neq in E1. right. split; [|reflexivity].
        Z.div_mod_to_equations. lia.
  - cbn [forallb] in Hnp. apply andb_true_iff in Hnp.
    destruct Hnp as [Hc Hrest]. apply negb_true_iff in Hc.
    rewrite count_data_cons in HN'.
    destruct (is_b64_data c) eqn:Hd.
    + destruct (is_b64_data_step c Hd) as [_ Htab].
      rewrite (a2b_loop_data c rest _ _ _ _ Hc Htab). cbv zeta.
      assert (Hcases : N mod 4 = 0 \/ N mod 4 = 1 \/ N mod 4 = 2 \/ N mod 4 = 3)
        by (Z.div_mod_to_equations; lia).
      destruct Hcases as [Hq | [Hq | [Hq | Hq]]]; rewrite Hq; cbv iota.
      * pose proof (IH Hrest (N + 1) N' (table_a2b_base64 c) 0 bin) as IH'.
        replace ((N + 1) mod 4) with 1 in IH'
          by (Z.div_mod_to_equations; lia).
        apply IH'; [lia | | lia].
        rewrite Hlen. Z.div_mod_to_equations. lia.
      * pose proof (IH Hrest (N + 1) N' (Z.land (table_a2b_base64 c) 15) 0
                      (bin ++ [u8 (Z.lor (Z.shiftl leftchar 2)
                                     (Z.shiftr (table_a2b_base64 c) 4))]))
          as IH'.
        replace ((N + 1) mod 4) with 2 in IH'
          by (Z.div_mod_to_equations; lia).
        apply IH'; [lia | | lia].
        rewrite length_app. cbn [length].
        Z.div_mod_to_equations. lia.
      * pose proof (IH Hrest (N + 1) N' (Z.land (table_a2b_base64 c) 3) 0
                      (bin ++ [u8 (Z.lor (Z.shiftl leftchar 4)
                                     (Z.shiftr (table_a2b_base64 c) 2))]))
          as IH'.
        replace ((N + 1) mod 4) with 3 in IH'
          by (Z.div_mod_to_equations; lia).
        apply IH'; [lia | | lia].
        rewrite length_app. cbn [length].
        Z.div_mod_to_equations. lia.
      * pose proof (IH Hrest (N + 1) N' 0 0
                      (bin ++ [u8 (Z.lor (Z.shiftl leftchar 6)
                                     (table_a2b_base64 c))]))
          as IH'.
        replace ((N + 1) mod 4) with 0 in IH'
          by (Z.div_mod_to_equations; lia).
        apply IH'; [lia | | lia].
        rewrite length_app. cbn [length].
        Z.div_mod_to_equations. lia.
    + rewrite a2b_loop_skip
        by (unfold is_b64_significant; rewrite Hc, Hd; reflexivity).
      apply IH; [exact Hrest | exact HN | exact Hlen | lia].
Qed.

(** X10: without padding, the number of alphabet characters decides.  For
    an ASCII string with no ['='], [b64decode] returns bytes exactly when
    the alphabet characters number a multiple of four, three bytes for
    every four of them; one character too many raises the "cannot be 1
    more than a multiple of 4" error with that count, two or three too
    many raise "Incorrect padding". *)
Theorem unpadded_string_decoding (s : string) :
  ascii_string s = true ->
  no_padding (list_byte_of_string s) = true ->
  (count_data (list_byte_of_string s) mod 4 = 0 ->
   exists out,
     b64decode (VStr s) = inr out
     /\ Z.of_nat (length out) = 3 * (count_data (list_byte_of_string s) / 4))
  /\ (count_data (list_byte_of_string s) mod 4 = 1 ->
      b64decode (VStr s) =
        inl (BinasciiError
               (InvalidLength (count_data (list_byte_of_string s)))))
  /\ (2 <= count_data (list_byte_of_string s) mod 4 ->
      b64decode (VStr s) = inl (BinasciiError IncorrectPadding)).
Proof.
  unfold ascii_string. intros Hascii Hnp.
  cbn [b64decode]. unfold encode_ascii. rewrite Hascii. unfold a2b_base64.
  pose proof (a2b_loop_no_padding (list_byte_of_string s) Hnp 0
                (count_data (list_byte_of_string s)) 0 0 []
                ltac:(lia) eq_refl ltac:(lia)) as H.
  change (0 mod 4) with 0 in H.
  destruct (a2b_loop (list_byte_of_string s) 0 0 0 []) as [e|out].
  - destruct H as [[Hm ->] | [Hm ->]].
    + split; [intros; lia|]. split; [reflexivity | intros; lia].
    + split; [intros; lia|]. split; [intros; lia | reflexivity].
  - destruct H as [Hm Hlen]. split; [|split; intros; lia].
    intros _. exists out. split; [reflexivity|].
    rewrite Hlen. Z.div_mod_to_equations. lia.
Qed.

Lemma unpadded_string_decoding_witness :
  b64decode (VStr "QUJD QUJDR") = inl (BinasciiError (InvalidLength 9)).
Proof.
  apply (proj1 (proj2 (unpadded_string_decoding "QUJD QUJDR"
                         eq_refl eq_refl))).
  reflexivity.
Defined.

(** ** Truncation and concatenation *)

(** The decoder on an encoding followed by more input.  When the encoding
    ends in padding, the loop stops there. *)
Lemma a2b_loop_b2a_padded (B extra : list byte) :
  (length B mod 3 <> 0)%nat ->
  forall bin leftchar pads,
    a2b_loop (b2a_base64 B ++ extra) 0 leftchar pads bin = inr (bin ++ B).
Proof.
  assert (H : forall n (l : list byte), (length l <= n)%nat ->
            (length l mod 3 <> 0)%nat ->
            forall bin leftchar pads,
              a2b_loop (b2a_base64 l ++ extra) 0 leftchar pads bin
              = inr (bin ++ l)).
  { intros n. induction n as [|n IH]; intros l Hl Hmod bin leftchar pads.
    - destruct l; [| simpl in Hl; lia]. cbn in Hmod. congruence.
    - destruct l as [|a [|b [|c rest]]].
      + cbn in Hmod. congruence.
      + pose proof (group_head_ok_all a "000"%byte) as Hh.
        pose proof (pad_tail_ok_all a "000"%byte) as Hp.
        unfold group_head_ok in Hh. unfold pad_tail_ok in Hp.
        cbv zeta in Hh, Hp. split_andb Hh. split_andb Hp.
        apply byte_eqb_eq in Hp1.
        cbn [b2a_base64 app]. cbv zeta.
        rewrite (a2b_loop_sextet _ _ 0) by assumption.
        rewrite (a2b_loop_sextet _ _ 1) by assumption.
        rewrite Hp1. reflexivity.
      + pose proof (group_head_ok_all a b) as Hh.
        pose proof (pad_tail_ok_all a b) as Hp.
        unfold group_head_ok in Hh. unfold pad_tail_ok in Hp.
        cbv zeta in Hh, Hp. split_andb Hh. split_andb Hp.
        apply byte_eqb_eq in Hh1, Hp0. apply Z.eqb_eq in Hh0.
        cbn [b2a_base64 app]. cbv zeta.
        rewrite (a2b_loop_sextet _ _ 0) by assumption.
        rewrite (a2b_loop_sextet _ _ 1) by assumption.
        rewrite (a2b_loop_sextet _ _ 2) by assumption.
        rewrite Hh1, Hh0, Hp0. cbn. rewrite <- app_assoc. reflexivity.
      + cbn [b2a_base64 app]. cbv zeta. rewrite a2b_loop_group.
        rewrite IH.
        * rewrite <- app_assoc. reflexivity.
        * simpl in Hl. lia.
        * cbn [length] in Hmod.
          replace (Datatypes.S (Datatypes.S (Datatypes.S (length rest))))
            with (length rest + 1 * 3)%nat in Hmod by lia.
          rewrite Nat.Div0.mod_add in Hmod. exact Hmod. }
  intros Hmod bin leftchar pads. apply (H (length B)); [lia | exact Hmod].
Qed.

(** When it is made of full groups, decoding goes on with what follows. *)
Lemma a2b_loop_b2a_full (B extra : list byte) :
  (length B mod 3 = 0)%nat ->
  forall bin,
    a2b_loop (b2a_base64 B ++ extra) 0 0 0 bin =
      a2b_loop extra 0 0 0 (bin ++ B).
Proof.
  assert (H : forall n (l : list byte), (length l <= n)%nat ->
            (length l mod 3 = 0)%nat ->
            forall bin,
              a2b_loop (b2a_base64 l ++ extra) 0 0 0 bin
              = a2b_loop extra 0 0 0 (bin ++ l)).
  { intros n. induction n as [|n IH]; intros l Hl Hmod bin.
    - destruct l; [| simpl in Hl; lia]. cbn [b2a_base64 app].
      rewrite app_nil_r. reflexivity.
    - destruct l as [|a [|b [|c rest]]].
      + cbn [b2a_base64 app]. rewrite app_nil_r. reflexivity.
      + cbn in Hmod. discriminate.
      + cbn in Hmod. discriminate.
      + cbn [b2a_base64 app]. cbv zeta. rewrite a2b_loop_group.
        rewrite IH.
        * rewrite <- app_assoc. reflexivity.
        * simpl in Hl. lia.
        * cbn [length] in Hmod.
          replace (Datatypes.S (Datatypes.S (Datatypes.S (length rest))))
            with (length rest + 1 * 3)%nat in Hmod by lia.
          rewrite Nat.Div0.mod_add in Hmod. exact Hmod. }
  intros Hmod bin. apply (H (length B)); [lia | exact Hmod].
Qed.

Lemma forallb_is_ascii_app (l1 l2 : list byte) :
  forallb is_ascii l1 = true -> forallb is_ascii l2 = true ->
  forallb is_ascii (l1 ++ l2) = true.
Proof. intros H1 H2. rewrite forallb_app, H1, H2. reflexivity. Qed.

(** X16: input after a completed padding is dropped without notice.  When
    the number of bytes of [B] is not a multiple of three, so that its
    encoding ends in ['='], [b64decode] of that encoding followed by any
    ASCII text at all returns [B]: what follows is neither decoded nor
    reported. *)
Theorem data_after_padding_is_dropped (B extra : list byte) :
  (length B mod 3 <> 0)%nat ->
  forallb is_ascii extra = true ->
  b64decode (VStr (string_of_list_byte (b2a_base64 B ++ extra))) = inr B.
Proof.
  intros Hmod Hextra. cbn [b64decode].
  rewrite encode_ascii_of_bytes
    by (apply forallb_is_ascii_app; [apply b2a_base64_ascii | exact Hextra]).
  unfold a2b_base64. apply (a2b_loop_b2a_padded B extra Hmod []).
Qed.

Lemma data_after_padding_is_dropped_witness :
  b64decode
    (VStr (string_of_list_byte
             (b2a_base64 (list_byte_of_string "AB")
              ++ list_byte_of_string "QUJD")))
  = inr (list_byte_of_string "AB").
Proof.
  apply data_after_padding_is_dropped.
  - vm_compute. discriminate.
  - reflexivity.
Defined.

(** X17: encodings of whole groups can be joined.  When the number of bytes
    of [B1] is a multiple of three, [b64decode] of the encoding of [B1]
    followed by the encoding of [B2] returns [B1] followed by [B2]. *)
Theorem joined_encodings_decode (B1 B2 : list byte) :
  (length B1 mod 3 = 0)%nat ->
  b64decode (VStr (string_of_list_byte (b2a_base64 B1 ++ b2a_base64 B2)))
  = inr (B1 ++ B2).
Proof.
  intros Hmod. cbn [b64decode].
  rewrite encode_ascii_of_bytes
    by (apply forallb_is_ascii_app; apply b2a_base64_ascii).
  unfold a2b_base64. rewrite (a2b_loop_b2a_full B1 _ Hmod []).
  apply a2b_loop_b2a.
Qed.

Lemma joined_encodings_decode_witness :
  b64decode
    (VStr (string_of_list_byte
             (b2a_base64 (list_byte_of_string "ABC")
              ++ b2a_base64 (list_byte_of_string "DE"))))
  = inr (list_byte_of_string "ABC" ++ list_byte_of_string "DE").
Proof.
  apply joined_encodings_decode. reflexivity.
Defined.

(** ** The size and shape of what the handler encodes *)

Lemma length_b2a_base64 (B : list byte) :
  Z.of_nat (length (b2a_base64 B)) = 4 * ((Z.of_nat (length B) + 2) / 3).
Proof.
  assert (H : forall n (l : list byte), (length l <= n)%nat ->
            Z.of_nat (length (b2a_base64 l))
            = 4 * ((Z.of_nat (length l) + 2) / 3)).
  { intros n. induction n as [|n IH]; intros l Hl.
    - destruct l; [reflexivity | simpl in Hl; lia].
    - destruct l as [|a [|b [|c rest]]]; try reflexivity.
      cbn [b2a_base64]. cbv zeta. cbn [length].
      specialize (IH rest ltac:(simpl in Hl; lia)).
      rewrite !Nat2Z.inj_succ, IH.
      Z.div_mod_to_equations. lia. }
  apply (H (length B)). lia.
Qed.

Lemma length_string_of_list_byte (l : list byte) :
  String.length (string_of_list_byte l) = length l.
Proof.
  unfold string_of_list_byte.
  induction l as [|b l IH]; [reflexivity|].
  cbn [List.map string_of_list_ascii String.length length]. rewrite IH.
  reflexivity.
Qed.

(** ** More on the handler *)

Section HandlerFurther.

Context {Session : Type}.
Variable kokoro_init : bool -> exn + Session.
Variable kokoro_tts :
  Session -> value -> list byte -> (exn + value) * Session.

Abbreviation handler := (handler kokoro_tts).
Abbreviation pipeline_tts := (pipeline_tts kokoro_tts).
Abbreviation world := (world (Session := Session)).
Abbreviation main := (main kokoro_init kokoro_tts).

(** X1: a Job that is not a mapping (a list, a string, a number, None)
    makes [job['input']] raise [TypeError]; the world is as it was. *)
Theorem job_not_mapping_raises (l : loc) (w : world) (job : value) :
  heap w !! l = Some (OValue job) ->
  (forall m, job <> VDict m) ->
  handler l w = (inl TypeError, w).
Proof.
  intros Hl Hnot. unfold handler, bind, getitem. rewrite Hl.
  destruct job; try reflexivity. destruct (Hnot d). reflexivity.
Qed.

(** X2: when [input] is there but is not a mapping, [job_input.get] raises
    [AttributeError]: no Response, no check of [speaker_wav_base64], no
    [tts] call. *)
Theorem input_not_mapping_raises (l : loc) (w : world)
    (m : gmap string value) (job_input : value) :
  heap w !! l = Some (OValue (VDict m)) ->
  m !! "input" = Some job_input ->
  (forall inp, job_input <> VDict inp) ->
  handler l w = (inl AttributeError, w).
Proof.
  intros Hl Hin Hnot. unfold handler, bind, getitem. rewrite Hl, Hin.
  destruct job_input; try reflexivity. destruct (Hnot d). reflexivity.
Qed.

(** X3: a truthy [speaker_wav_base64] that is neither a string nor bytes
    (a number, True, a non-empty list or mapping) passes the check and is
    refused by [b64decode] with [TypeError], before any [tts] call. *)
Theorem speaker_wav_of_wrong_type_raises (l : loc) (w : world)
    (m inp : gmap string value) (v : value) :
  heap w !! l = Some (OValue (VDict m)) ->
  m !! "input" = Some (VDict inp) ->
  inp !! "speaker_wav_base64" = Some v ->
  truthy v = true ->
  (forall s, v <> VStr s) ->
  (forall b, v <> VBytes b) ->
  handler l w = (inl TypeError, w).
Proof.
  intros Hl Hin Hv Ht Hstr Hbytes.
  rewrite (handler_on_input kokoro_tts l w m inp Hl Hin). cbv zeta.
  rewrite Hv. cbn [from_option id]. rewrite Ht.
  destruct v; try reflexivity.
  - destruct (Hstr s). reflexivity.
  - destruct (Hbytes b). reflexivity.
Qed.

(** X4: a [text] that is present is passed on as it is, whatever it is: an
    empty string, None or a number is not replaced by the placeholder, which
    stands in for a missing key only. *)
Theorem present_text_is_passed_unchanged (l : loc) (w : world)
    (m inp : gmap string value) (t v : value) (wav : list byte) (p : loc)
    (st : Session) :
  heap w !! l = Some (OValue (VDict m)) ->
  m !! "input" = Some (VDict inp) ->
  inp !! "text" = Some t ->
  inp !! "speaker_wav_base64" = Some v ->
  truthy v = true ->
  b64decode v = inr wav ->
  pipeline w = Some p ->
  heap w !! p = Some (OPipeline st) ->
  calls (snd (handler l w)) = calls w ++ [mkCall p t wav].
Proof.
  intros Hl Hin Htext Hv Ht Hdec Hp Hst.
  rewrite (handler_reaches_tts kokoro_tts l w m inp v wav p st
             Hl Hin Hv Ht Hdec Hp Hst).
  cbv zeta. rewrite Htext. cbn [from_option id].
  destruct (fst (kokoro_tts st t wav)) as [e|wb]; [reflexivity|].
  destruct (b64encode wb) as [e|enc]; [reflexivity|].
  destruct (decode_utf8 enc) as [e|E]; reflexivity.
Qed.

(** X5: a failure of [tts] is not caught.  The handler raises the very
    exception [tts] raised; the call is in the log and the session keeps
    whatever state [tts] left it in. *)
Theorem tts_failure_propagates (l : loc) (w : world)
    (m inp : gmap string value) (v : value) (wav : list byte) (p : loc)
    (st st' : Session) (e : exn) :
  heap w !! l = Some (OValue (VDict m)) ->
  m !! "input" = Some (VDict inp) ->
  inp !! "speaker_wav_base64" = Some v ->
  truthy v = true ->
  b64decode v = inr wav ->
  pipeline w = Some p ->
  heap w !! p = Some (OPipeline st) ->
  kokoro_tts st (default (VStr "Hello, this is a test.") (inp !! "text")) wav
    = (inl e, st') ->
  handler l w =
    (inl e,
     set_heap (<[p := OPipeline st']> (heap w))
       (log_call
          (mkCall p (default (VStr "Hello, this is a test.") (inp !! "text"))
             wav) w)).
Proof.
  intros Hl Hin Hv Ht Hdec Hp Hst Htts.
  rewrite (handler_reaches_tts kokoro_tts l w m inp v wav p st
             Hl Hin Hv Ht Hdec Hp Hst).
  cbv zeta. unfold default_text. rewrite Htts. reflexivity.
Qed.

(** X6: what [tts] returns decides the rest.  [bytes] are encoded and
    returned under [audio_base64], and the [.decode('utf-8')] step does not
    fail.  None, a bool, an int, a float, a [str], a list or a mapping
    makes [b64encode] raise [TypeError], after the call was made.  (The
    other bytes-like objects of Python, which [b64encode] encodes as well,
    are not among the values modelled here, and nothing is said of them.) *)
Theorem tts_result_is_encoded_or_refused (l : loc) (w : world)
    (m inp : gmap string value) (v : value) (wav : list byte) (p : loc)
    (st st' : Session) (result : value) :
  heap w !! l = Some (OValue (VDict m)) ->
  m !! "input" = Some (VDict inp) ->
  inp !! "speaker_wav_base64" = Some v ->
  truthy v = true ->
  b64decode v = inr wav ->
  pipeline w = Some p ->
  heap w !! p = Some (OPipeline st) ->
  kokoro_tts st (default (VStr "Hello, this is a test.") (inp !! "text")) wav
    = (inr result, st') ->
  fst (handler l w) =
    match result with
    | VBytes B =>
        inr {[ "audio_base64" := VStr (string_of_list_byte (b2a_base64 B)) ]}
    | VNone | VBool _ | VInt _ | VFloat _ | VStr _ | VList _ | VDict _ =>
        inl TypeError
    end.
Proof.
  intros Hl Hin Hv Ht Hdec Hp Hst Htts.
  rewrite (handler_reaches_tts kokoro_tts l w m inp v wav p st
             Hl Hin Hv Ht Hdec Hp Hst).
  cbv zeta. unfold default_text. rewrite Htts. cbn [fst].
  destruct result; try reflexivity.
  cbn [b64encode]. rewrite decode_utf8_b2a. reflexivity.
Qed.

(** What the handler returns, with the encoded bytes in sight. *)
Lemma handler_returns_encoded (l : loc) (w w' : world)
    (r : gmap string value) :
  handler l w = (inr r, w') ->
  (exists B,
     r = {[ "audio_base64" := VStr (string_of_list_byte (b2a_base64 B)) ]})
  \/ r = {[ "error" := VStr required_field_message ]}.
Proof.
  unfold handler, bind, getitem.
  destruct (heap w !! l) as [[j|st]|]; try discriminate.
  destruct j; try discriminate.
  destruct (d !! "input") as [ji|]; [|discriminate].
  destruct ji; try discriminate.
  unfold dict_get.
  assert (Hrest : forall t v (k : M (gmap string value)),
    k = (if negb (truthy v)
         then ret {[ "error" := VStr required_field_message ]}
         else
           bind (lift (b64decode v)) (fun speaker_wav_bytes =>
           bind (pipeline_tts t speaker_wav_bytes) (fun wav_bytes =>
           bind (lift (b64encode wav_bytes)) (fun encoded =>
           bind (lift (decode_utf8 encoded)) (fun wav_base64 =>
           ret {[ "audio_base64" := VStr wav_base64 ]}))))) ->
    k w = (inr r, w') ->
    (exists B,
       r = {[ "audio_base64" := VStr (string_of_list_byte (b2a_base64 B)) ]})
    \/ r = {[ "error" := VStr required_field_message ]}).
  { intros t v k ->. unfold bind.
    destruct (truthy v); cbn [negb].
    - destruct (b64decode v) as [e|wav]; cbn [lift raise ret];
        [discriminate|].
      destruct (pipeline_tts t wav w) as [[e|wb] w1]; [discriminate|].
      destruct wb; cbn [b64encode lift raise ret]; try discriminate.
      rewrite decode_utf8_b2a. cbn [lift ret].
      intros H. left. exists b.
      apply (f_equal (fun x : (exn + gmap string value) * world =>
                        match fst x with
                        | inr r => r
                        | inl _ => ∅
                        end)) in H.
      cbn [fst] in H. symmetry. exact H.
    - unfold ret. intros H. right.
      apply (f_equal (fun x : (exn + gmap string value) * world =>
                        match fst x with
                        | inr r => r
                        | inl _ => ∅
                        end)) in H.
      cbn [fst] in H. symmetry. exact H. }
  destruct (d0 !! "text") as [t|];
    destruct (d0 !! "speaker_wav_base64") as [v|]; cbn [ret];
    eapply Hrest; reflexivity.
Qed.

(** X7: every [audio_base64] the handler returns is a string of the strict
    base64 shape (alphabet characters in groups of four, padding only at
    the end), four characters for every three bytes of audio, rounded up;
    [b64decode] gives the audio back. *)
Theorem returned_audio_is_well_shaped (l : loc) (w w' : world)
    (r : gmap string value) (a : value) :
  handler l w = (inr r, w') ->
  r !! "audio_base64" = Some a ->
  exists (E : string) (B : list byte),
    a = VStr E
    /\ valid_base64 E = true
    /\ b64decode (VStr E) = inr B
    /\ Z.of_nat (String.length E) = 4 * ((Z.of_nat (length B) + 2) / 3).
Proof.
  intros H Ha.
  destruct (handler_returns_encoded l w w' r H) as [[B ->] | ->].
  - rewrite lookup_singleton_eq in Ha.
    exists (string_of_list_byte (b2a_base64 B)), B.
    split; [congruence|]. split; [|split].
    + unfold valid_base64. rewrite list_byte_of_string_of_list_byte.
      apply b2a_base64_valid.
    + apply b64decode_b2a.
    + rewrite length_string_of_list_byte. apply length_b2a_base64.
  - rewrite lookup_singleton_ne in Ha by discriminate. discriminate.
Qed.

(** X8: only two fields count.  Two Jobs whose [input] mappings agree on
    [text] and on [speaker_wav_base64], handled with the session in the
    same state, end alike (the same Response or the same failure) and leave
    the session in the same state, whatever other keys the Job or its
    [input] carry. *)
Theorem only_text_and_speaker_wav_matter (l1 l2 : loc) (w1 w2 : world)
    (m1 inp1 m2 inp2 : gmap string value) (p1 p2 : loc) (st : Session) :
  heap w1 !! l1 = Some (OValue (VDict m1)) ->
  m1 !! "input" = Some (VDict inp1) ->
  heap w2 !! l2 = Some (OValue (VDict m2)) ->
  m2 !! "input" = Some (VDict inp2) ->
  inp1 !! "text" = inp2 !! "text" ->
  inp1 !! "speaker_wav_base64" = inp2 !! "speaker_wav_base64" ->
  pipeline w1 = Some p1 ->
  heap w1 !! p1 = Some (OPipeline st) ->
  pipeline w2 = Some p2 ->
  heap w2 !! p2 = Some (OPipeline st) ->
  fst (handler l1 w1) = fst (handler l2 w2)
  /\ heap (snd (handler l1 w1)) !! p1 = heap (snd (handler l2 w2)) !! p2.
Proof.
  intros Hl1 Hin1 Hl2 Hin2 Htext Hspk Hp1 Hst1 Hp2 Hst2.
  rewrite (handler_on_input kokoro_tts l1 w1 m1 inp1 Hl1 Hin1).
  rewrite (handler_on_input kokoro_tts l2 w2 m2 inp2 Hl2 Hin2).
  cbv zeta. rewrite Htext, Hspk.
  destruct (truthy (default VNone (inp2 !! "speaker_wav_base64")));
    [|cbn [fst snd]; split; [reflexivity | congruence]].
  destruct (b64decode (default VNone (inp2 !! "speaker_wav_base64")))
    as [e|wav]; [cbn [fst snd]; split; [reflexivity | congruence]|].
  rewrite (pipeline_tts_ready kokoro_tts _ wav w1 p1 st Hp1 Hst1).
  rewrite (pipeline_tts_ready kokoro_tts _ wav w2 p2 st Hp2 Hst2).
  assert (Hheap :
    forall t,
      heap (set_heap
              (<[p1 := OPipeline (snd (kokoro_tts st t wav))]> (heap w1))
              (log_call (mkCall p1 t wav) w1)) !! p1
      = heap (set_heap
                (<[p2 := OPipeline (snd (kokoro_tts st t wav))]> (heap w2))
                (log_call (mkCall p2 t wav) w2)) !! p2).
  { intros t. cbn [heap set_heap log_call]. rewrite !lookup_insert_eq.
    reflexivity. }
  destruct (fst (kokoro_tts st _ wav)) as [e|wb];
    [cbn [fst snd]; split; [reflexivity | apply Hheap]|].
  destruct (b64encode wb) as [e|enc];
    [cbn [fst snd]; split; [reflexivity | apply Hheap]|].
  destruct (decode_utf8 enc) as [e|E];
    cbn [fst snd]; split; try reflexivity; apply Hheap.
Qed.

(** X11: the check is on emptiness only.  A non-empty ASCII string without
    a single alphabet character (blanks, dots, padding characters) passes
    it and decodes to no bytes at all: [tts] is called with an empty
    reference voice. *)
Theorem speaker_wav_without_data_reaches_tts (l : loc) (w : world)
    (m inp : gmap string value) (s : string) (p : loc) (st : Session) :
  heap w !! l = Some (OValue (VDict m)) ->
  m !! "input" = Some (VDict inp) ->
  inp !! "speaker_wav_base64" = Some (VStr s) ->
  s <> "" ->
  ascii_string s = true ->
  no_data (list_byte_of_string s) = true ->
  pipeline w = Some p ->
  heap w !! p = Some (OPipeline st) ->
  calls (snd (handler l w)) =
    calls w
    ++ [mkCall p (default (VStr "Hello, this is a test.") (inp !! "text")) []].
Proof.
  intros Hl Hin Hv Hne Hascii Hnd Hp Hst.
  assert (Hdec : b64decode (VStr s) = inr []).
  { cbn [b64decode]. unfold encode_ascii. unfold ascii_string in Hascii.
    rewrite Hascii. unfold a2b_base64. apply a2b_loop_no_data, Hnd. }
  rewrite (handler_reaches_tts kokoro_tts l w m inp (VStr s) [] p st
             Hl Hin Hv (truthy_nonempty_string s Hne) Hdec Hp Hst).
  cbv zeta. unfold default_text.
  destruct (fst (kokoro_tts st _ [])) as [e|wb]; [reflexivity|].
  destruct (b64encode wb) as [e|enc]; [reflexivity|].
  destruct (decode_utf8 enc) as [e|E]; reflexivity.
Qed.

(** X12: one Job, at most one synthesis.  Whatever the Job and the world,
    a call of the handler calls [tts] at most once, and on the session the
    global names: the log of calls is left as it was or gets one entry at
    its end. *)
Theorem handler_calls_tts_at_most_once (l : loc) (w : world) :
  calls (snd (handler l w)) = calls w
  \/ exists c, calls (snd (handler l w)) = calls w ++ [c]
               /\ pipeline w = Some (call_self c).
Proof.
  destruct (handler_world kokoro_tts l w) as [-> | (text & wav & ->)];
    [auto|].
  destruct (pipeline_tts_world kokoro_tts text wav w)
    as [-> | (p & st & st1 & Hp & Hst & ->)]; [auto|].
  cbn [calls set_heap log_call].
  right. exists (mkCall p text wav). split; [reflexivity | exact Hp].
Qed.

(** X13: when the constructor raises, the module stops there: the
    exception leaves the process, nothing was printed, the global is not
    bound and no Job is handled. *)
Theorem constructor_failure_stops_the_module (jobs : list value) (e : exn) :
  kokoro_init true = inl e ->
  main jobs process_start = (inl e, process_start).
Proof.
  intros Hinit. unfold main, bind, KokoroV1Pipeline. rewrite Hinit.
  reflexivity.
Qed.

End HandlerFurther.

(** ** The further theorems at work *)

Lemma job_not_mapping_raises_witness :
  handler echo_tts 1%positive (example_world (VList [VStr "input"])) =
    (inl TypeError, example_world (VList [VStr "input"])).
Proof.
  apply (job_not_mapping_raises echo_tts 1%positive
           (example_world (VList [VStr "input"])) (VList [VStr "input"])).
  - reflexivity.
  - intros m. discriminate.
Defined.

Lemma input_not_mapping_raises_witness :
  handler echo_tts 1%positive (example_world job_input_is_text) =
    (inl AttributeError, example_world job_input_is_text).
Proof.
  apply (input_not_mapping_raises echo_tts 1%positive
           (example_world job_input_is_text)
           {[ "input" := VStr "Hello" ]} (VStr "Hello")).
  - reflexivity.
  - reflexivity.
  - intros inp. discriminate.
Defined.

Lemma speaker_wav_of_wrong_type_raises_witness :
  handler echo_tts 1%positive (example_world job_number_speaker) =
    (inl TypeError, example_world job_number_speaker).
Proof.
  apply (speaker_wav_of_wrong_type_raises echo_tts 1%positive
           (example_world job_number_speaker)
           {[ "input" := VDict {[ "speaker_wav_base64" := VInt 7 ]} ]}
           {[ "speaker_wav_base64" := VInt 7 ]} (VInt 7)).
  - reflexivity.
  - reflexivity.
  - reflexivity.
  - reflexivity.
  - intros s. discriminate.
  - intros b. discriminate.
Defined.

Lemma present_text_is_passed_unchanged_witness :
  calls (snd (handler echo_tts 1%positive (example_world job_empty_text))) =
    calls (example_world job_empty_text)
    ++ [mkCall 2%positive (VStr "") (list_byte_of_string "ABC")].
Proof.
  apply (present_text_is_passed_unchanged echo_tts 1%positive
           (example_world job_empty_text)
           {[ "input" :=
                VDict {[ "text" := VStr "";
                         "speaker_wav_base64" := VStr "QUJD" ]} ]}
           {[ "text" := VStr ""; "speaker_wav_base64" := VStr "QUJD" ]}
           (VStr "") (VStr "QUJD") (list_byte_of_string "ABC")
           2%positive 0%nat);
    reflexivity.
Defined.

Lemma tts_failure_propagates_witness :
  handler failing_tts 1%positive (example_world job_no_text) =
    (inl (ModelError 1),
     set_heap (<[2%positive := OPipeline 1%nat]>
                 (heap (example_world job_no_text)))
       (log_call
          (mkCall 2%positive
             (default (VStr "Hello, this is a test.")
                (({[ "speaker_wav_base64" := VStr "QUJD" ]}
                  : gmap string value) !! "text"))
             (list_byte_of_string "ABC"))
          (example_world job_no_text))).
Proof.
  apply (tts_failure_propagates failing_tts 1%positive
           (example_world job_no_text)
           {[ "input" := VDict {[ "speaker_wav_base64" := VStr "QUJD" ]} ]}
           {[ "speaker_wav_base64" := VStr "QUJD" ]} (VStr "QUJD")
           (list_byte_of_string "ABC") 2%positive 0%nat 1%nat (ModelError 1));
    reflexivity.
Defined.

Lemma tts_result_is_encoded_or_refused_witness :
  fst (handler str_tts 1%positive (example_world job_no_text)) = inl TypeError.
Proof.
  apply (tts_result_is_encoded_or_refused str_tts 1%positive
           (example_world job_no_text)
           {[ "input" := VDict {[ "speaker_wav_base64" := VStr "QUJD" ]} ]}
           {[ "speaker_wav_base64" := VStr "QUJD" ]} (VStr "QUJD")
           (list_byte_of_string "ABC") 2%positive 0%nat 1%nat (VStr "RIFF"));
    reflexivity.
Defined.

Lemma returned_audio_is_well_shaped_witness :
  exists (E : string) (B : list byte),
    VStr "QUJD" = VStr E
    /\ valid_base64 E = true
    /\ b64decode (VStr E) = inr B
    /\ Z.of_nat (String.length E) = 4 * ((Z.of_nat (length B) + 2) / 3).
Proof.
  apply (returned_audio_is_well_shaped echo_tts 1%positive
           (example_world job_hello)
           (snd (handler echo_tts 1%positive (example_world job_hello)))
           {[ "audio_base64" := VStr "QUJD" ]} (VStr "QUJD")).
  - vm_compute. reflexivity.
  - reflexivity.
Defined.

Lemma only_text_and_speaker_wav_matter_witness :
  fst (handler echo_tts 1%positive (example_world job_hello))
  = fst (handler echo_tts 1%positive (example_world job_hello_tagged))
  /\ heap (snd (handler echo_tts 1%positive (example_world job_hello)))
       !! 2%positive
     = heap (snd (handler echo_tts 1%positive
                    (example_world job_hello_tagged))) !! 2%positive.
Proof.
  apply (only_text_and_speaker_wav_matter echo_tts 1%positive 1%positive
           (example_world job_hello) (example_world job_hello_tagged)
           {[ "input" :=
                VDict {[ "text" := VStr "Hello world";
                         "speaker_wav_base64" := VStr "QUJD" ]} ]}
           {[ "text" := VStr "Hello world";
              "speaker_wav_base64" := VStr "QUJD" ]}
           {[ "id" := VStr "job-1";
              "input" :=
                VDict {[ "text" := VStr "Hello world";
                         "speaker_wav_base64" := VStr "QUJD";
                         "language" := VStr "en" ]} ]}
           {[ "text" := VStr "Hello world";
              "speaker_wav_base64" := VStr "QUJD";
              "language" := VStr "en" ]}
           2%positive 2%positive 0%nat);
    reflexivity.
Defined.

Lemma speaker_wav_without_data_reaches_tts_witness :
  calls (snd (handler echo_tts 1%positive (example_world job_blank_speaker)))
  = calls (example_world job_blank_speaker)
    ++ [mkCall 2%positive
          (default (VStr "Hello, this is a test.")
             (({[ "speaker_wav_base64" := VStr " . " ]}
               : gmap string value) !! "text"))
          []].
Proof.
  apply (speaker_wav_without_data_reaches_tts echo_tts 1%positive
           (example_world job_blank_speaker)
           {[ "input" := VDict {[ "speaker_wav_base64" := VStr " . " ]} ]}
           {[ "speaker_wav_base64" := VStr " . " ]} " . " 2%positive 0%nat);
    try reflexivity.
  discriminate.
Defined.

Lemma constructor_failure_stops_the_module_witness :
  main failing_init echo_tts [job_hello; job_no_text] process_start =
    (inl (ModelError 2), process_start).
Proof.
  apply (constructor_failure_stops_the_module failing_init echo_tts
           [job_hello; job_no_text] (ModelError 2)).
  reflexivity.
Defined.
